(** * Sentence store of the file-processing bot: ingestion and search

    A shallow embedding of [src/app.py].  The three functions that carry the
    behaviour are [extract_file_content], [populate_database] and
    [search_similar_content]; they are written here as programs of a small
    state-and-exception monad whose state is the shared collection
    [document_storage] and whose output is the list of calls made to the
    collaborators (decoder, segmenter, embedding model, collection).

    Python [str] values are modelled as [string] (the UTF-8 bytes of the
    text), [bytes] as [list Byte.byte], embeddings as lists of rationals.
    Calls to [logger] have no effect on any value and are left out. *)

From Stdlib Require Import String Ascii List Bool Arith Lia.
From Stdlib Require Import QArith Lqa.
From Stdlib Require Import Sorted Permutation.
From Stdlib Require Import Decimal DecimalNat DecimalString.
From Stdlib.Strings Require Byte.
Import ListNotations.

Close Scope Q_scope.
Local Open Scope nat_scope.
Local Open Scope string_scope.
Local Open Scope list_scope.

(** ** Python strings *)

Module PyStr.

(** [str.lower] on the ASCII letters; every other byte is kept.  (The two
    suffixes tested by the source are ASCII, and no character outside ASCII
    lower-cases to one of their characters.) *)
Definition lower_ascii (c : ascii) : ascii :=
  let n := nat_of_ascii c in
  if ((65 <=? n) && (n <=? 90))%nat then ascii_of_nat (n + 32) else c.

Fixpoint lower (s : string) : string :=
  match s with
  | EmptyString => EmptyString
  | String c s' => String (lower_ascii c) (lower s')
  end.

(** [s.endswith(suffix)] *)
Fixpoint endswith (s suffix : string) : bool :=
  if String.eqb s suffix then true
  else match s with
       | EmptyString => false
       | String _ s' => endswith s' suffix
       end.

(** [str(n)] for a non-negative [int] *)
Definition str (n : nat) : string :=
  NilEmpty.string_of_uint (Nat.to_uint n).

Definition newline : string := String "010"%char EmptyString.

(** [sep.join(parts)] *)
Definition join (sep : string) (parts : list string) : string :=
  String.concat sep parts.

(** truth value of a [str] *)
Definition truthy (s : string) : bool :=
  match s with EmptyString => false | _ => true end.

(** [file_name] ends with [ext], letter case apart; [ext] is in lower
    case. *)
Definition has_extension (file_name ext : string) : Prop :=
  exists stem suffix,
    file_name = (stem ++ suffix)%string /\ lower suffix = ext.

End PyStr.

(** ** Records, collection and collaborators *)

Definition vector := list Q.

(** One entry of the collection: the triple passed to [document_storage.add]. *)
Record VectorRecord := mkRecord {
  rec_id : string;
  rec_embedding : vector;
  rec_document : string
}.

(** The collection, in insertion order. *)
Definition Store := list VectorRecord.

Inductive StoreError := DuplicateId | DimensionMismatch | EmptyText.

(** What a Python call can raise in the modelled code. *)
Inductive Exception :=
| DecodeFailure
| EncodeFailure
| StoreFailure (e : StoreError).

(** The collaborators of the pipelines.  A collaborator that raises is
    modelled by [None]. *)
Record Collaborators := mkCollaborators {
  (** [file_bytes.decode(chardet.detect(file_bytes)['encoding'])] *)
  detect_decode : list Byte.byte -> option string;
  (** the texts of [Document(io.BytesIO(file_bytes)).paragraphs] *)
  docx_paragraphs : list Byte.byte -> option (list string);
  (** [nltk.tokenize.sent_tokenize] *)
  sent_tokenize : string -> list string;
  (** [embedding_model.encode] *)
  encode : string -> option vector;
  (** the similarity of two embeddings under the collection's metric; only
      the order of its values is used *)
  similarity : vector -> vector -> Q
}.

(** Calls made to the collaborators, in the order they happen. *)
Inductive Call :=
| CallDetectDecode (file_bytes : list Byte.byte)
| CallDocx (file_bytes : list Byte.byte)
| CallSentTokenize (text : string)
| CallEncode (text : string)
| CallAdd (id : string) (embedding : vector) (document : string)
| CallQuery (query_embedding : vector) (n_results : nat).

(** ** The monad: state (the collection), exceptions, and a log of calls *)

Inductive Outcome (A : Type) :=
| Ok (a : A)
| Raise (e : Exception).
Arguments Ok {A} a.
Arguments Raise {A} e.

Definition Prog (A : Type) : Type := Store -> Outcome A * Store * list Call.

Definition ret {A} (a : A) : Prog A := fun st => (Ok a, st, []).

Definition bind {A B} (m : Prog A) (f : A -> Prog B) : Prog B :=
  fun st =>
    match m st with
    | (Ok a, st', t) =>
        match f a st' with (r, st'', t') => (r, st'', t ++ t') end
    | (Raise e, st', t) => (Raise e, st', t)
    end.

(** [try: m  except Exception as e: h e] *)
Definition try_except {A} (m : Prog A) (h : Exception -> Prog A) : Prog A :=
  fun st =>
    match m st with
    | (Ok a, st', t) => (Ok a, st', t)
    | (Raise e, st', t) =>
        match h e st' with (r, st'', t') => (r, st'', t ++ t') end
    end.

(** A call to a collaborator that does not touch the collection. *)
Definition call {A} (c : Call) (r : option A) (e : Exception) : Prog A :=
  fun st => (match r with Some a => Ok a | None => Raise e end, st, [c]).

(** A call to a collaborator that always returns. *)
Definition call_total {A} (c : Call) (a : A) : Prog A :=
  fun st => (Ok a, st, [c]).

Notation "x <- m ;; k" := (bind m (fun x => k))
  (at level 61, m at next level, right associativity).
Notation "m ;;; k" := (bind m (fun _ => k))
  (at level 61, right associativity).

(** ** The collection *)

Module Collection.

Definition has_id (st : Store) (id : string) : bool :=
  existsb (fun r => String.eqb (rec_id r) id) st.

(** The dimension [D] of the collection, set by the first insertion. *)
Definition dimension (st : Store) : option nat :=
  match st with
  | [] => None
  | r :: _ => Some (length (rec_embedding r))
  end.

Definition dimension_ok (st : Store) (v : vector) : bool :=
  match dimension st with
  | None => true
  | Some d => (length v =? d)%nat
  end.

(** Modelled from the spec: the collection's [add] is code of the vector
    database, which is not under src/.  Following section 4.1, it rejects a
    record whose id is already present ([DuplicateId]), whose embedding has
    another length than the dimension of the collection
    ([DimensionMismatch]), or whose text is empty ([EmptyText]); otherwise
    the record is appended and visible at once. *)
Definition add (st : Store) (r : VectorRecord) : StoreError + Store :=
  if has_id st (rec_id r) then inl DuplicateId
  else if negb (dimension_ok st (rec_embedding r)) then inl DimensionMismatch
  else if negb (PyStr.truthy (rec_document r)) then inl EmptyText
  else inr (st ++ [r]).

Definition ids (st : Store) : list string := map rec_id st.

Section Search.

Variable metric : vector -> vector -> Q.
Variable query_embedding : vector.

Definition score (r : VectorRecord) : Q :=
  metric query_embedding (rec_embedding r).

(** A record with its position in insertion order. *)
Definition Entry : Type := nat * VectorRecord.

Definition entry_score (e : Entry) : Q := score (snd e).

(** Insertion of [x] in a ranked list: [x] goes in front of the first entry
    whose score is not greater than its own. *)
Fixpoint insert (x : Entry) (l : list Entry) : list Entry :=
  match l with
  | [] => [x]
  | y :: l' =>
      if Qle_bool (entry_score y) (entry_score x) then x :: l
      else y :: insert x l'
  end.

(** [a] ranks before [b]: its score is greater, or the scores are equal and
    [a] was inserted earlier. *)
Definition ranks_before (a b : Entry) : Prop :=
  (entry_score b < entry_score a)%Q \/
  ((entry_score a == entry_score b)%Q /\ fst a < fst b).

Definition entries (st : Store) : list Entry :=
  combine (seq 0 (length st)) st.

(** The linear scan: every record is scored and put in its place. *)
Definition ranked (st : Store) : list Entry :=
  fold_right insert [] (entries st).

Definition search_hits (k : nat) (st : Store) : list Entry :=
  firstn k (ranked st).

(** Modelled from the spec: the collection's [search] is code of the vector
    database, which is not under src/.  Following section 4.1, it returns at
    most [k] records with their scores, sorted by decreasing similarity to
    the query embedding, ties broken by insertion order (the earlier record
    wins), and the empty sequence on an empty collection. *)
Definition search (k : nat) (st : Store) : list (VectorRecord * Q) :=
  map (fun e => (snd e, entry_score e)) (search_hits k st).

(** Modelled from the spec: what section 4.1 asks of the entries that a
    search with limit [k] returns.  They are entries of the collection, as
    many as the limit and the collection allow, in ranking order, and every
    entry left out ranks after each of them. *)
Definition is_top_k (k : nat) (st : Store) (l : list Entry) : Prop :=
  StronglySorted ranks_before l /\
  incl l (entries st) /\
  length l = min k (length st) /\
  (forall u h, In u (entries st) -> ~ In u l -> In h l -> ranks_before h u).

End Search.

(** The result of [collection.query]: the value under ['documents'], if
    any. *)
Record QueryResult := mkQueryResult {
  documents : option (list (list string))
}.

(** [collection.query(query_embeddings=..., n_results=...)]: one list of
    documents per query embedding, as the source reads it
    ([matched_documents[0]] is the list for the first query). *)
Definition query (metric : vector -> vector -> Q) (st : Store)
  (query_embeddings : list vector) (n_results : nat) : QueryResult :=
  mkQueryResult
    (Some (map (fun q => map (fun h => rec_document (fst h))
                             (search metric q n_results st))
               query_embeddings)).

End Collection.

(** [document_storage.add(ids=[id], embeddings=[embedding],
    documents=[document])] as a program. *)
Definition storage_add (id : string) (embedding : vector) (document : string)
  : Prog unit :=
  fun st =>
    match Collection.add st (mkRecord id embedding document) with
    | inr st' => (Ok tt, st', [CallAdd id embedding document])
    | inl e => (Raise (StoreFailure e), st, [CallAdd id embedding document])
    end.

(** ** Replies of the bot *)

Definition msg_cannot_process : string :=
  "Не удалось обработать содержимое файла.".

Definition msg_saved : string := "Данные успешно сохранены!".

Definition msg_add_error (file_name : string) : string :=
  ("Ошибка при добавлении данных из файла " ++ file_name ++ ".")%string.

Definition msg_no_matches : string :=
  "Совпадений не найдено. Попробуйте уточнить запрос.".

Definition msg_results_header : string :=
  ("Результаты поиска:" ++ PyStr.newline)%string.

Definition msg_search_error : string := "Во время поиска произошла ошибка.".

(** ** Ingestion *)

Section Pipelines.

Variable env : Collaborators.

(** [extract_file_content(file_bytes, file_name)]; Python's [None] is
    [None]. *)
Definition extract_file_content (file_bytes : list Byte.byte)
  (file_name : string) : Prog (option string) :=
  try_except
    (if PyStr.endswith (PyStr.lower file_name) ".txt" then
       text <- call (CallDetectDecode file_bytes)
                    (detect_decode env file_bytes) DecodeFailure ;;
       ret (Some text)
     else if PyStr.endswith (PyStr.lower file_name) ".docx" then
       paragraphs <- call (CallDocx file_bytes)
                          (docx_paragraphs env file_bytes) DecodeFailure ;;
       ret (Some (PyStr.join PyStr.newline paragraphs))
     else ret None)
    (fun _ => ret None).

(** The body of the [try] in the loop of [populate_database]. *)
Definition add_sentence (index : nat) (sentence : string) : Prog unit :=
  v <- call (CallEncode sentence) (encode env sentence) EncodeFailure ;;
  storage_add (PyStr.str index) v sentence.

(** The loop [for index, sentence in enumerate(sentences)] of
    [populate_database], from position [index] on, with what follows it. *)
Fixpoint add_sentences (file_name : string) (index : nat)
  (sentences : list string) : Prog string :=
  match sentences with
  | [] => ret msg_saved
  | sentence :: rest =>
      continue <- try_except
                    (add_sentence index sentence ;;; ret true)
                    (fun _ => ret false) ;;
      if continue : bool then add_sentences file_name (S index) rest
      else ret (msg_add_error file_name)
  end.

(** [populate_database(file_content, file_name)] *)
Definition populate_database (file_content : list Byte.byte)
  (file_name : string) : Prog string :=
  text <- extract_file_content file_content file_name ;;
  match text with
  | None => ret msg_cannot_process
  | Some text =>
      if negb (PyStr.truthy text) then ret msg_cannot_process
      else
        sentences <- call_total (CallSentTokenize text)
                                (sent_tokenize env text) ;;
        add_sentences file_name 0 sentences
  end.

(** ** Search *)

Definition collection_query (query_embeddings : list vector)
  (n_results : nat) : Prog Collection.QueryResult :=
  fun st =>
    (Ok (Collection.query (similarity env) st query_embeddings n_results),
     st,
     map (fun q => CallQuery q n_results) query_embeddings).

(** The loop over [enumerate(matched_documents[0])]: each document adds the
    line [f"{i+1}. {document}\n"] to the answer. *)
Fixpoint append_lines (answer : string) (i : nat) (docs : list string)
  : string :=
  match docs with
  | [] => answer
  | document :: rest =>
      append_lines
        (answer ++ PyStr.str (i + 1) ++ ". " ++ document ++ PyStr.newline)%string
        (S i) rest
  end.

(** [results.get('documents', [])] *)
Definition get_documents (results : Collection.QueryResult)
  : list (list string) :=
  match Collection.documents results with
  | Some d => d
  | None => []
  end.

(** [search_similar_content(query, collection, top_n)], the collection being
    [document_storage], the one its caller passes. *)
Definition search_similar_content (query : string) (top_n : nat)
  : Prog string :=
  try_except
    (query_vector <- call (CallEncode query) (encode env query)
                          EncodeFailure ;;
     results <- collection_query [query_vector] top_n ;;
     let matched_documents := get_documents results in
     match matched_documents with
     | [] => ret msg_no_matches
     | first :: _ => ret (append_lines msg_results_header 0 first)
     end)
    (fun _ => ret msg_search_error).

(** The texts that the collection returns for one query embedding. *)
Definition matched_texts (query_vector : vector) (top_n : nat) (st : Store)
  : list string :=
  map (fun h => rec_document (fst h))
      (Collection.search (similarity env) query_vector top_n st).

End Pipelines.

(** The loop of [populate_database] without its handler: the sentences are
    embedded and stored one after the other, and the first failure is
    raised.  It says of a run of sentences that all of them went in. *)
Fixpoint store_sentences (env : Collaborators) (index : nat)
  (sentences : list string) : Prog unit :=
  match sentences with
  | [] => ret tt
  | sentence :: rest =>
      add_sentence env index sentence ;;;
      store_sentences env (S index) rest
  end.

(** ** Concrete collaborators, for running the pipelines *)

Module Sample.

(** A segmenter: a sentence ends at a full stop; blanks in front of a
    sentence are dropped, and so is a last piece that is empty. *)
Fixpoint split_sentences (current text : string) : list string :=
  match text with
  | EmptyString => if PyStr.truthy current then [current] else []
  | String c rest =>
      if Ascii.eqb c "." then
        (current ++ ".")%string :: split_sentences "" rest
      else if Ascii.eqb c " " && negb (PyStr.truthy current) then
        split_sentences "" rest
      else split_sentences (current ++ String c "")%string rest
  end.

(** An embedding model that fails on the sentence ["Bad."]. *)
Definition embed (sentence : string) : option vector :=
  if String.eqb sentence "Bad." then None
  else Some [inject_Z (Z.of_nat (String.length sentence)); 1%Q].

Fixpoint dot (u v : vector) : Q :=
  match u, v with
  | x :: u', y :: v' => (x * y + dot u' v')%Q
  | _, _ => 0%Q
  end.

Definition collaborators : Collaborators :=
  mkCollaborators
    (fun file_bytes => Some (string_of_list_byte file_bytes))
    (fun file_bytes => Some [string_of_list_byte file_bytes])
    (split_sentences "")
    embed
    dot.

Definition file (text : string) : list Byte.byte := list_byte_of_string text.

Definition document_a : string := "Cats are mammals. Dogs are loyal.".
Definition document_b : string := "Cats are mammals. Birds can fly.".
Definition document_five : string := "One. Two. Bad. Four. Five.".

(** The collection after the ingestion of [document_a] into an empty one. *)
Definition store_a : Store :=
  Eval vm_compute in
    snd (fst (populate_database collaborators (file document_a) "a.txt" [])).

(** The first two sentences of [document_five] going into an empty
    collection: the collection and the calls. *)
Definition store_five : Store :=
  Eval vm_compute in
    snd (fst (store_sentences collaborators 0 ["One."; "Two."] [])).

Definition calls_five : list Call :=
  Eval vm_compute in
    snd (store_sentences collaborators 0 ["One."; "Two."] []).

(** A collection in which the first and the third record are equally close
    to the query embedding [[1; 0]]. *)
Definition store_ties : Store :=
  [mkRecord "0" [1%Q; 5%Q] "first"; mkRecord "1" [2%Q; 0%Q] "second";
   mkRecord "2" [1%Q; 7%Q] "third"; mkRecord "3" [0%Q; 9%Q] "fourth"].

(** The three entries of [store_ties] that are closest to [[1; 0]], in
    ranking order. *)
Definition ranking_ties : list Collection.Entry :=
  [(1, mkRecord "1" [2%Q; 0%Q] "second");
   (0, mkRecord "0" [1%Q; 5%Q] "first");
   (2, mkRecord "2" [1%Q; 7%Q] "third")].

(** The calls made by the ingestion of [document_a] into an empty
    collection, and those of them made by the loop. *)
Definition calls_a : list Call :=
  Eval vm_compute in
    snd (populate_database collaborators (file document_a) "a.txt" []).

Definition calls_a_loop : list Call :=
  Eval vm_compute in
    snd (store_sentences collaborators 0
           ["Cats are mammals."; "Dogs are loyal."] []).

(** A decoder that takes ASCII only, and a document reader that always
    raises. *)
Definition strict_decode (file_bytes : list Byte.byte) : option string :=
  if existsb (fun b => (127 <? Byte.to_nat b)%nat) file_bytes then None
  else Some (string_of_list_byte file_bytes).

Definition strict_collaborators : Collaborators :=
  mkCollaborators strict_decode (fun _ => None) (split_sentences "") embed dot.

End Sample.

(** ** Reading the log and the answer *)

(** The ids that the calls to [document_storage.add] of a log ask for. *)
Definition added_ids (t : list Call) : list string :=
  flat_map (fun c => match c with CallAdd id _ _ => [id] | _ => [] end) t.

(** One line of the answer of a search: [number], a full stop, a blank, the
    document and a newline. *)
Definition result_line (number : nat) (document : string) : string :=
  (PyStr.str number ++ ". " ++ document ++ PyStr.newline)%string.

(** The lines for a list of documents, numbered from [first]. *)
Fixpoint result_lines (first : nat) (docs : list string) : string :=
  match docs with
  | [] => ""
  | document :: rest =>
      (result_line first document ++ result_lines (S first) rest)%string
  end.

(** ** The handlers of the bot *)

Module Bot.

(** [message.document] *)
Record Document := mkDocument {
  file_id : string;
  file_name : string
}.

(** What the handlers read of a Telegram message: [message.chat.id],
    [message.text] and [message.document]. *)
Record Message := mkMessage {
  chat_id : Z;
  text : string;
  document : Document
}.

(** The services behind the handlers.  A call that raises is modelled by
    [None], a [send_message] that raises by [false]. *)
Record Services := mkServices {
  (** [bot.token] *)
  token : string;
  (** [bot.get_file(file_id).file_path] *)
  get_file : string -> option string;
  (** [requests.get(url)]: [status_code] and [content] *)
  requests_get : string -> option (Z * list Byte.byte);
  (** whether [bot.send_message(chat_id, text)] returns *)
  send_message : Z -> string -> bool
}.

Inductive BotException :=
| PipelineError (e : Exception)
| ApiError
| RequestError
| SendError.

(** What a handler does to the outside, in order. *)
Inductive Effect :=
| Collaborator (c : Call)
| GetFile (file_id : string)
| HttpGet (url : string)
| SendMessage (chat_id : Z) (text : string).

Inductive Result (A : Type) :=
| Returned (a : A)
| Raised (e : BotException).
Arguments Returned {A} a.
Arguments Raised {A} e.

Definition Handler (A : Type) : Type :=
  Store -> Result A * Store * list Effect.

Definition hret {A} (a : A) : Handler A := fun st => (Returned a, st, []).

Definition hbind {A B} (m : Handler A) (f : A -> Handler B) : Handler B :=
  fun st =>
    match m st with
    | (Returned a, st', t) =>
        match f a st' with (r, st'', t') => (r, st'', t ++ t') end
    | (Raised e, st', t) => (Raised e, st', t)
    end.

(** [try: m  except Exception as e: h e] *)
Definition htry {A} (m : Handler A) (h : BotException -> Handler A)
  : Handler A :=
  fun st =>
    match m st with
    | (Returned a, st', t) => (Returned a, st', t)
    | (Raised e, st', t) =>
        match h e st' with (r, st'', t') => (r, st'', t ++ t') end
    end.

(** A call to a service. *)
Definition service {A} (f : Effect) (r : option A) (e : BotException)
  : Handler A :=
  fun st => (match r with Some a => Returned a | None => Raised e end, st, [f]).

(** A program of the pipelines run inside a handler. *)
Definition lift {A} (p : Prog A) : Handler A :=
  fun st =>
    match p st with
    | (Ok a, st', t) => (Returned a, st', map Collaborator t)
    | (Raise e, st', t) => (Raised (PipelineError e), st', map Collaborator t)
    end.

Notation "x <~ m ;; k" := (hbind m (fun x => k))
  (at level 61, m at next level, right associativity).

Definition msg_download_failed : string := "Не удалось скачать файл.".

Definition msg_upload_error : string :=
  "Произошла ошибка при обработке загруженного файла.".

Definition msg_query_failed : string := "Не удалось обработать запрос.".

Definition msg_wrong_format : string :=
  "Пожалуйста, загрузите файл формата .txt или .docx.".

Definition msg_upload_failed : string :=
  "Не удалось обработать загруженный файл.".

Section Handlers.

Variable svc : Services.
Variable env : Collaborators.

(** [f"https://api.telegram.org/file/bot{bot.token}/{file_info.file_path}"] *)
Definition download_url (file_path : string) : string :=
  ("https://api.telegram.org/file/bot" ++ token svc ++ "/" ++ file_path)%string.

(** [bot.send_message(chat_id, text)] *)
Definition send (chat : Z) (reply : string) : Handler unit :=
  fun st =>
    (if send_message svc chat reply then Returned tt else Raised SendError,
     st, [SendMessage chat reply]).

(** [download_and_process_file(file_id, bot, file_name)] *)
Definition download_and_process_file (id name : string) : Handler string :=
  htry
    (file_path <~ service (GetFile id) (get_file svc id) ApiError ;;
     response <~ service (HttpGet (download_url file_path))
                         (requests_get svc (download_url file_path))
                         RequestError ;;
     if (fst response =? 200)%Z then
       lift (populate_database env (snd response) name)
     else hret msg_download_failed)
    (fun _ => hret msg_upload_error).

(** [handle_text_query(message, bot)]; [top_n] has its default value. *)
Definition handle_text_query (message : Message) : Handler unit :=
  htry
    (response <~ lift (search_similar_content env (text message) 5) ;;
     send (chat_id message) response)
    (fun _ => send (chat_id message) msg_query_failed).

(** [handle_file_upload(message, bot)] *)
Definition handle_file_upload (message : Message) : Handler unit :=
  htry
    (let uploaded_file := document message in
     let name := file_name uploaded_file in
     if PyStr.endswith (PyStr.lower name) ".txt"
        || PyStr.endswith (PyStr.lower name) ".docx" then
       result <~ download_and_process_file (file_id uploaded_file) name ;;
       send (chat_id message) result
     else send (chat_id message) msg_wrong_format)
    (fun _ => send (chat_id message) msg_upload_failed).

End Handlers.

(** Services for running the handlers: the file ["doc-a"] is document A, the
    file ["gone"] is not on the server any more, the file ["lost"] is unknown
    to the API; every message goes out except the ones to chat 13. *)
Definition sample_services : Services :=
  mkServices
    "TOKEN"
    (fun id => if String.eqb id "lost" then None
               else Some ("documents/" ++ id)%string)
    (fun url =>
       if String.eqb url
            "https://api.telegram.org/file/botTOKEN/documents/doc-a"
       then Some (200%Z, Sample.file Sample.document_a)
       else if String.eqb url
                 "https://api.telegram.org/file/botTOKEN/documents/gone"
       then Some (404%Z, [])
       else None)
    (fun chat _ => negb (chat =? 13)%Z).

End Bot.

(** * Properties *)

(** ** Strings *)

Module PyStrFacts.
Import PyStr.

Lemma endswith_iff (s suffix : string) :
  endswith s suffix = true <-> exists p, s = (p ++ suffix)%string.
Proof.
  induction s as [|c s IH]; cbn [endswith].
  - destruct (String.eqb_spec "" suffix) as [E|E].
    + split; [intros _; exists ""; now rewrite <- E | reflexivity].
    + split; [discriminate|].
      intros [p H]. destruct p; simpl in H; [congruence | discriminate].
  - destruct (String.eqb_spec (String c s) suffix) as [E|E].
    + split; [intros _; exists ""; now rewrite <- E | reflexivity].
    + rewrite IH. split.
      * intros [p ->]. now exists (String c p).
      * intros [p H]. destruct p as [|c' p]; simpl in H.
        -- congruence.
        -- injection H as _ ->. now exists p.
Qed.

Lemma lower_app (s t : string) :
  lower (s ++ t) = (lower s ++ lower t)%string.
Proof. induction s; simpl; congruence. Qed.

Lemma lower_split (a b : string) : forall s,
  lower s = (a ++ b)%string ->
  exists x y, s = (x ++ y)%string /\ lower x = a /\ lower y = b.
Proof.
  induction a as [|c a IH]; intros s H; simpl in H.
  - exists "", s. auto.
  - destruct s as [|d s]; simpl in H; [discriminate|].
    injection H as Hc Hs. destruct (IH _ Hs) as (x & y & -> & Hx & Hy).
    exists (String d x), y. simpl. now rewrite Hc, Hx.
Qed.

Lemma has_extension_iff (file_name ext : string) :
  has_extension file_name ext <-> endswith (lower file_name) ext = true.
Proof.
  rewrite endswith_iff. split.
  - intros (stem & suffix & -> & <-). exists (lower stem). apply lower_app.
  - intros [p H]. destruct (lower_split _ _ _ H) as (x & y & -> & _ & Hy).
    now exists x, y.
Qed.

Lemma str_inj (n m : nat) : str n = str m -> n = m.
Proof.
  unfold str. intros H. apply Unsigned.to_uint_inj.
  assert (E : Some (Nat.to_uint n) = Some (Nat.to_uint m))
    by (rewrite <- !NilEmpty.usu; now rewrite H).
  now injection E.
Qed.

Lemma truthy_false (s : string) : truthy s = false <-> s = "".
Proof. destruct s; simpl; split; congruence. Qed.

End PyStrFacts.

(** The replies are told apart by their first letters. *)
Lemma msg_saved_not_add_error (file_name : string) :
  msg_saved <> msg_add_error file_name.
Proof. discriminate. Qed.

Lemma msg_cannot_process_not_saved : msg_cannot_process <> msg_saved.
Proof. discriminate. Qed.

Lemma msg_cannot_process_not_add_error (file_name : string) :
  msg_cannot_process <> msg_add_error file_name.
Proof. discriminate. Qed.

(** ** Ingestion *)

Ltac unfold_prog :=
  unfold bind, try_except, call, call_total, ret, storage_add in *.

Section IngestionFacts.

Variable env : Collaborators.

(** Extraction never raises, never touches the collection, and calls at most
    one decoder. *)
Lemma extract_file_content_run (file_bytes : list Byte.byte)
  (file_name : string) (st : Store) :
  exists text t,
    extract_file_content env file_bytes file_name st = (Ok text, st, t) /\
    (t = [] \/ t = [CallDetectDecode file_bytes] \/ t = [CallDocx file_bytes]).
Proof.
  unfold extract_file_content. unfold_prog.
  destruct (PyStr.endswith (PyStr.lower file_name) ".txt").
  - destruct (detect_decode env file_bytes); simpl; eauto 6.
  - destruct (PyStr.endswith (PyStr.lower file_name) ".docx").
    + destruct (docx_paragraphs env file_bytes); simpl; eauto 6.
    + simpl; eauto 6.
Qed.

Lemma extract_file_content_unsupported (file_bytes : list Byte.byte)
  (file_name : string) (st : Store) :
  PyStr.endswith (PyStr.lower file_name) ".txt" = false ->
  PyStr.endswith (PyStr.lower file_name) ".docx" = false ->
  extract_file_content env file_bytes file_name st = (Ok None, st, []).
Proof.
  intros H1 H2. unfold extract_file_content. unfold_prog.
  now rewrite H1, H2.
Qed.

(** A sentence that goes in: it was embedded, and its record, keyed by its
    position, is the new last record of the collection. *)
Lemma add_sentence_ok (index : nat) (sentence : string) (st st' : Store)
  (t : list Call) :
  add_sentence env index sentence st = (Ok tt, st', t) ->
  exists v,
    encode env sentence = Some v /\
    st' = st ++ [mkRecord (PyStr.str index) v sentence] /\
    t = [CallEncode sentence; CallAdd (PyStr.str index) v sentence].
Proof.
  unfold add_sentence. unfold_prog.
  destruct (encode env sentence) as [v|]; [|discriminate].
  unfold Collection.add; simpl.
  destruct (Collection.has_id st (PyStr.str index)); [discriminate|].
  destruct (Collection.dimension_ok st v); simpl; [|discriminate].
  destruct (PyStr.truthy sentence); simpl; [|discriminate].
  intros H. injection H as <- <-. eauto.
Qed.

(** A sentence that fails leaves the collection as it was. *)
Lemma add_sentence_raise (index : nat) (sentence : string) (st st' : Store)
  (e : Exception) (t : list Call) :
  add_sentence env index sentence st = (Raise e, st', t) ->
  st' = st /\
  (t = [CallEncode sentence] \/
   exists v, t = [CallEncode sentence; CallAdd (PyStr.str index) v sentence]).
Proof.
  unfold add_sentence. unfold_prog.
  destruct (encode env sentence) as [v|].
  - destruct (Collection.add st _); intros H; [|discriminate].
    simpl in H. injection H as _ <- <-. eauto.
  - intros H. injection H as _ <- <-. eauto.
Qed.

(** The records that [store_sentences] leaves behind. *)
Lemma store_sentences_ok (sentences : list string) :
  forall (index : nat) (st st' : Store) (t : list Call),
    store_sentences env index sentences st = (Ok tt, st', t) ->
    exists added,
      st' = st ++ added /\
      map rec_document added = sentences /\
      map rec_id added =
        map PyStr.str (seq index (length sentences)).
Proof.
  induction sentences as [|s rest IH]; intros index st st' t; simpl.
  - unfold ret. intros H; injection H as <- _. exists []. now rewrite app_nil_r.
  - unfold bind at 1.
    destruct (add_sentence env index s st) as [[[[]|e] st1] t1] eqn:E1;
      [|discriminate].
    destruct (store_sentences env (S index) rest st1) as [[r st2] t2] eqn:E2.
    intros H; injection H as -> -> _.
    destruct (add_sentence_ok _ _ _ _ _ E1) as (v & _ & -> & _).
    destruct (IH _ _ _ _ E2) as (added & -> & Hd & Hi).
    exists (mkRecord (PyStr.str index) v s :: added).
    rewrite <- app_assoc. simpl. now rewrite Hd, Hi.
Qed.

(** The loop goes through a run of sentences that all go in, and carries on
    with the rest. *)
Lemma add_sentences_app (file_name : string) (pre rest : list string) :
  forall (index : nat) (st st1 : Store) (t1 : list Call),
    store_sentences env index pre st = (Ok tt, st1, t1) ->
    add_sentences env file_name index (pre ++ rest) st =
    match add_sentences env file_name (index + length pre) rest st1 with
    | (r, st2, t2) => (r, st2, t1 ++ t2)
    end.
Proof.
  induction pre as [|s pre IH]; intros index st st1 t1; simpl.
  - unfold ret. intros H; injection H as <- <-. rewrite Nat.add_0_r.
    now destruct (add_sentences env file_name index rest st) as [[? ?] ?].
  - unfold bind at 1.
    destruct (add_sentence env index s st) as [[[[]|e] st0] t0] eqn:E1;
      [|discriminate].
    destruct (store_sentences env (S index) pre st0) as [[r st2] t2] eqn:E2.
    intros H; injection H as -> -> <-.
    unfold bind at 1, try_except at 1, bind at 1. rewrite E1. simpl.
    rewrite (IH _ _ _ _ E2). rewrite Nat.add_succ_r.
    change (S index + length pre) with (S (index + length pre)).
    destruct (add_sentences env file_name (S (index + length pre)) rest st1)
      as [[r' st'] t'].
    now rewrite app_nil_r, app_assoc.
Qed.

(** The loop stops at a sentence that fails. *)
Lemma add_sentences_raise (file_name : string) (index : nat) (s : string)
  (rest : list string) (st st' : Store) (e : Exception) (t : list Call) :
  add_sentence env index s st = (Raise e, st', t) ->
  add_sentences env file_name index (s :: rest) st =
  (Ok (msg_add_error file_name), st, t).
Proof.
  intros E. destruct (add_sentence_raise _ _ _ _ _ _ E) as [-> _].
  simpl. unfold bind at 1, try_except at 1, bind at 1. rewrite E. simpl.
  now rewrite !app_nil_r.
Qed.

End IngestionFacts.

Section IngestionClaims.

Variable env : Collaborators.

(** What [populate_database] does with a text that passed the first test. *)
Lemma populate_database_text (file_bytes : list Byte.byte)
  (file_name text : string) (st : Store) (t0 : list Call) :
  extract_file_content env file_bytes file_name st = (Ok (Some text), st, t0) ->
  text <> "" ->
  populate_database env file_bytes file_name st =
  match add_sentences env file_name 0 (sent_tokenize env text) st with
  | (r, st', t) => (r, st', t0 ++ CallSentTokenize text :: t)
  end.
Proof.
  intros E Hne. unfold populate_database. unfold bind at 1. rewrite E.
  destruct text as [|c text]; [congruence|].
  change (negb (PyStr.truthy (String c text))) with false. cbv iota.
  unfold bind at 1, call_total.
  now destruct (add_sentences env file_name 0 _ st) as [[r st'] t].
Qed.

(** C10: a file whose name ends in neither [.txt] nor [.docx], letter case
    apart, gets the could-not-process reply; the collection is left as it
    was and no collaborator is called, so no embedding is computed. *)
Theorem populate_database_unsupported_format (file_bytes : list Byte.byte)
  (file_name : string) (st : Store) :
  ~ PyStr.has_extension file_name ".txt" ->
  ~ PyStr.has_extension file_name ".docx" ->
  populate_database env file_bytes file_name st =
  (Ok msg_cannot_process, st, []).
Proof.
  intros H1 H2. rewrite PyStrFacts.has_extension_iff in H1, H2.
  apply not_true_is_false in H1, H2.
  unfold populate_database. unfold bind at 1.
  now rewrite (extract_file_content_unsupported env _ _ _ H1 H2).
Qed.

(** C6, amended: a document whose text is empty is rejected at once with
    the could-not-process reply: the collection is left as it was, and the
    only call made is the one to the decoder that produced the text.  (A
    text made of blanks is not rejected here.) *)
Theorem populate_database_empty_text (file_bytes : list Byte.byte)
  (file_name : string) (st : Store) (t0 : list Call) :
  extract_file_content env file_bytes file_name st = (Ok (Some ""), st, t0) ->
  populate_database env file_bytes file_name st =
    (Ok msg_cannot_process, st, t0) /\
  (forall c, In c t0 ->
     c = CallDetectDecode file_bytes \/ c = CallDocx file_bytes).
Proof.
  intros E. split.
  - unfold populate_database. unfold bind at 1. rewrite E. simpl.
    unfold ret. now rewrite app_nil_r.
  - destruct (extract_file_content_run env file_bytes file_name st)
      as (text & t & E' & Ht).
    rewrite E in E'. injection E' as _ ->.
    intros c Hc. destruct Ht as [-> | [-> | ->]]; simpl in Hc; intuition.
Qed.

(** C7, amended: a document whose text is not empty and has no sentence
    gets the reply of a successful ingestion, and the collection is left as
    it was: after the segmenter, nothing is called. *)
Theorem populate_database_no_sentences (file_bytes : list Byte.byte)
  (file_name text : string) (st : Store) (t0 : list Call) :
  extract_file_content env file_bytes file_name st = (Ok (Some text), st, t0) ->
  text <> "" ->
  sent_tokenize env text = [] ->
  populate_database env file_bytes file_name st =
  (Ok msg_saved, st, t0 ++ [CallSentTokenize text]).
Proof.
  intros E Hne Hs. rewrite (populate_database_text _ _ _ _ _ E Hne), Hs.
  reflexivity.
Qed.

(** C2, amended: when the sentences before position [i] all go in and
    sentence [i] fails to be embedded or stored, ingestion stops there: it
    returns the error reply for the file, the collection holds one new
    record for each sentence before [i] and none for a later one, and the
    last calls made are those for sentence [i].  No count of successes is
    reported. *)
Theorem populate_database_stops_at_first_failure
  (file_bytes : list Byte.byte) (file_name text : string)
  (pre post : list string) (s : string) (st st1 st2 : Store)
  (t0 t1 t2 : list Call) (e : Exception) :
  extract_file_content env file_bytes file_name st = (Ok (Some text), st, t0) ->
  text <> "" ->
  sent_tokenize env text = pre ++ s :: post ->
  store_sentences env 0 pre st = (Ok tt, st1, t1) ->
  add_sentence env (length pre) s st1 = (Raise e, st2, t2) ->
  populate_database env file_bytes file_name st =
    (Ok (msg_add_error file_name), st1,
     t0 ++ CallSentTokenize text :: t1 ++ t2) /\
  length st1 = length st + length pre /\
  (t2 = [CallEncode s] \/
   exists v, t2 = [CallEncode s; CallAdd (PyStr.str (length pre)) v s]).
Proof.
  intros E Hne Hs Hpre Hfail.
  rewrite (populate_database_text _ _ _ _ _ E Hne), Hs.
  rewrite (add_sentences_app env file_name _ _ _ _ _ _ Hpre). simpl plus.
  rewrite (add_sentences_raise env file_name _ _ post _ _ _ _ Hfail).
  destruct (store_sentences_ok env _ _ _ _ _ Hpre) as (added & -> & Hd & _).
  destruct (add_sentence_raise env _ _ _ _ _ _ Hfail) as [_ Ht].
  repeat split; auto.
  rewrite length_app. f_equal. now rewrite <- Hd, length_map.
Qed.

(** C5: when sentence [i] fails, the collection that ingestion leaves is the
    one it found followed by one record for each sentence before [i], in
    order: no record stored earlier is removed. *)
Theorem populate_database_keeps_stored_records
  (file_bytes : list Byte.byte) (file_name text : string)
  (pre post : list string) (s : string) (st st1 st2 : Store)
  (t0 t1 t2 : list Call) (e : Exception) :
  extract_file_content env file_bytes file_name st = (Ok (Some text), st, t0) ->
  text <> "" ->
  sent_tokenize env text = pre ++ s :: post ->
  store_sentences env 0 pre st = (Ok tt, st1, t1) ->
  add_sentence env (length pre) s st1 = (Raise e, st2, t2) ->
  exists added,
    snd (fst (populate_database env file_bytes file_name st)) = st ++ added /\
    map rec_document added = pre /\
    map rec_id added = map PyStr.str (seq 0 (length pre)) /\
    incl st1 (snd (fst (populate_database env file_bytes file_name st))).
Proof.
  intros E Hne Hs Hpre Hfail.
  rewrite (populate_database_text _ _ _ _ _ E Hne), Hs.
  rewrite (add_sentences_app env file_name _ _ _ _ _ _ Hpre). simpl plus.
  rewrite (add_sentences_raise env file_name _ _ post _ _ _ _ Hfail).
  destruct (store_sentences_ok env _ _ _ _ _ Hpre) as (added & -> & Hd & Hi).
  exists added. simpl. repeat split; auto. apply incl_refl.
Qed.

End IngestionClaims.

(** ** Ingestion on concrete documents *)

(** A picture sent to a collection that holds document A. *)
Lemma populate_database_unsupported_format_witness :
  ~ PyStr.has_extension "photo.PNG" ".txt" /\
  ~ PyStr.has_extension "photo.PNG" ".docx" /\
  populate_database Sample.collaborators (Sample.file "pixels") "photo.PNG"
    Sample.store_a = (Ok msg_cannot_process, Sample.store_a, []).
Proof.
  assert (H1 : ~ PyStr.has_extension "photo.PNG" ".txt")
    by (rewrite PyStrFacts.has_extension_iff; vm_compute; discriminate).
  assert (H2 : ~ PyStr.has_extension "photo.PNG" ".docx")
    by (rewrite PyStrFacts.has_extension_iff; vm_compute; discriminate).
  split; [exact H1|]. split; [exact H2|].
  exact (populate_database_unsupported_format Sample.collaborators
           (Sample.file "pixels") "photo.PNG" Sample.store_a H1 H2).
Defined.

(** A text file of no bytes. *)
Lemma populate_database_empty_text_witness :
  populate_database Sample.collaborators [] "empty.txt" Sample.store_a =
    (Ok msg_cannot_process, Sample.store_a, [CallDetectDecode []]) /\
  (forall c, In c [CallDetectDecode []] ->
     c = CallDetectDecode [] \/ c = CallDocx []).
Proof.
  apply (populate_database_empty_text Sample.collaborators [] "empty.txt"
           Sample.store_a [CallDetectDecode []]).
  reflexivity.
Defined.

(** C6, as stated, fails on a text made of one blank: the text is handed to
    the segmenter, and the reply is the one of a successful ingestion. *)
Lemma populate_database_blank_text_not_rejected :
  extract_file_content Sample.collaborators (Sample.file " ") "blank.txt" [] =
    (Ok (Some " "), [], [CallDetectDecode (Sample.file " ")]) /\
  populate_database Sample.collaborators (Sample.file " ") "blank.txt" [] =
    (Ok msg_saved, [],
     [CallDetectDecode (Sample.file " "); CallSentTokenize " "]) /\
  Ok msg_saved <> Ok msg_cannot_process.
Proof. repeat split; discriminate. Qed.

(** A text file of two blanks. *)
Lemma populate_database_no_sentences_witness :
  populate_database Sample.collaborators (Sample.file "  ") "blanks.txt"
    Sample.store_a =
  (Ok msg_saved, Sample.store_a,
   [CallDetectDecode (Sample.file "  ")] ++ [CallSentTokenize "  "]).
Proof.
  apply (populate_database_no_sentences Sample.collaborators
           (Sample.file "  ") "blanks.txt" "  " Sample.store_a).
  - reflexivity.
  - discriminate.
  - reflexivity.
Defined.

(** C7, as stated, fails on a document of three blanks: its text is not
    empty, it has no sentence, and the reply is the one of a successful
    ingestion, not one of its own. *)
Lemma populate_database_no_sentences_reports_success :
  extract_file_content Sample.collaborators (Sample.file "   ") "blanks.docx"
    [] = (Ok (Some "   "), [], [CallDocx (Sample.file "   ")]) /\
  sent_tokenize Sample.collaborators "   " = [] /\
  fst (fst (populate_database Sample.collaborators (Sample.file "   ")
              "blanks.docx" [])) = Ok msg_saved.
Proof. repeat split. Qed.

(** The document of five sentences, the third of which cannot be embedded,
    going into an empty collection. *)
Lemma populate_database_stops_at_first_failure_witness :
  populate_database Sample.collaborators (Sample.file Sample.document_five)
    "five.txt" [] =
    (Ok (msg_add_error "five.txt"), Sample.store_five,
     [CallDetectDecode (Sample.file Sample.document_five)] ++
     CallSentTokenize Sample.document_five ::
     Sample.calls_five ++ [CallEncode "Bad."]) /\
  length Sample.store_five = length (@nil VectorRecord) + length ["One."; "Two."] /\
  ([CallEncode "Bad."] = [CallEncode "Bad."] \/
   exists v,
     [CallEncode "Bad."] =
     [CallEncode "Bad."; CallAdd (PyStr.str (length ["One."; "Two."])) v "Bad."]).
Proof.
  apply (populate_database_stops_at_first_failure Sample.collaborators
           (Sample.file Sample.document_five) "five.txt" Sample.document_five
           ["One."; "Two."] ["Four."; "Five."] "Bad."
           [] Sample.store_five Sample.store_five
           [CallDetectDecode (Sample.file Sample.document_five)]
           Sample.calls_five [CallEncode "Bad."] EncodeFailure).
  - reflexivity.
  - discriminate.
  - reflexivity.
  - reflexivity.
  - reflexivity.
Defined.

(** C2, as stated, fails on a document of five sentences of which only the
    one at position 2 cannot be embedded: two records are stored, not four,
    and the last two sentences are never handed to the embedding model. *)
Lemma populate_database_aborts_after_failure :
  sent_tokenize Sample.collaborators Sample.document_five =
    ["One."; "Two."; "Bad."; "Four."; "Five."] /\
  map (fun s => match encode Sample.collaborators s with
               | Some _ => true
               | None => false
               end)
      ["One."; "Two."; "Bad."; "Four."; "Five."] =
    [true; true; false; true; true] /\
  map rec_document
      (snd (fst (populate_database Sample.collaborators
                   (Sample.file Sample.document_five) "five.txt" []))) =
    ["One."; "Two."] /\
  ~ In (CallEncode "Four.")
       (snd (populate_database Sample.collaborators
               (Sample.file Sample.document_five) "five.txt" [])) /\
  ~ In (CallEncode "Five.")
       (snd (populate_database Sample.collaborators
               (Sample.file Sample.document_five) "five.txt" [])).
Proof.
  split; [reflexivity|]. split; [reflexivity|]. split; [reflexivity|].
  split; vm_compute; intuition discriminate.
Qed.

(** The same run, seen from the collection. *)
Lemma populate_database_keeps_stored_records_witness :
  exists added,
    snd (fst (populate_database Sample.collaborators
                (Sample.file Sample.document_five) "five.txt" []))
      = [] ++ added /\
    map rec_document added = ["One."; "Two."] /\
    map rec_id added = map PyStr.str (seq 0 (length ["One."; "Two."])) /\
    incl Sample.store_five
      (snd (fst (populate_database Sample.collaborators
                   (Sample.file Sample.document_five) "five.txt" []))).
Proof.
  apply (populate_database_keeps_stored_records Sample.collaborators
           (Sample.file Sample.document_five) "five.txt" Sample.document_five
           ["One."; "Two."] ["Four."; "Five."] "Bad."
           [] Sample.store_five Sample.store_five
           [CallDetectDecode (Sample.file Sample.document_five)]
           Sample.calls_five [CallEncode "Bad."] EncodeFailure).
  - reflexivity.
  - discriminate.
  - reflexivity.
  - reflexivity.
  - reflexivity.
Defined.

(** ** Identifiers *)

(** The collection never holds two records with one id: [add] turns a second
    one down. *)
Lemma add_keeps_ids_distinct (st st' : Store) (r : VectorRecord) :
  NoDup (Collection.ids st) ->
  Collection.add st r = inr st' ->
  NoDup (Collection.ids st').
Proof.
  unfold Collection.add, Collection.ids. intros Hnd.
  destruct (Collection.has_id st (rec_id r)) eqn:Hid; [discriminate|].
  destruct (negb (Collection.dimension_ok st (rec_embedding r)));
    [discriminate|].
  destruct (negb (PyStr.truthy (rec_document r))); [discriminate|].
  intros H; injection H as <-.
  rewrite map_app. simpl. apply NoDup_app; auto.
  - constructor; [intros []|constructor].
  - intros x Hx [<-|[]].
    apply in_map_iff in Hx. destruct Hx as (r' & Hr' & Hin).
    assert (Collection.has_id st (rec_id r) = true); [|congruence].
    apply existsb_exists. exists r'. split; auto.
    now apply String.eqb_eq.
Qed.

(** The ids that one ingestion asks for are the positions of the sentences
    in their document, whatever the collection holds. *)
Lemma add_sentences_ids (env : Collaborators) (file_name : string)
  (sentences : list string) :
  forall (index : nat) (st : Store) (id : string) (v : vector) (d : string),
    In (CallAdd id v d) (snd (add_sentences env file_name index sentences st)) ->
    exists i, i < length sentences /\ id = PyStr.str (index + i) /\
              nth_error sentences i = Some d.
Proof.
  induction sentences as [|s rest IH]; intros index st id v d; simpl.
  - intros [].
  - unfold bind at 1, try_except at 1, bind at 1.
    destruct (add_sentence env index s st) as [[[[]|e] st1] t1] eqn:E1; simpl.
    + destruct (add_sentence_ok env _ _ _ _ _ E1) as (v1 & _ & _ & ->).
      destruct (add_sentences env file_name (S index) rest st1)
        as [[r st2] t2] eqn:E2.
      simpl. intros [H|[H|H]]; [discriminate| |].
      * injection H as <- _ <-. exists 0. rewrite Nat.add_0_r.
        repeat split; auto. lia.
      * destruct (IH (S index) st1 id v d) as (i & Hi & -> & Hn).
        { now rewrite E2. }
        exists (S i). split; [lia|]. split; [f_equal; lia | exact Hn].
    + destruct (add_sentence_raise env _ _ _ _ _ _ E1) as [-> Ht].
      rewrite !app_nil_r.
      destruct Ht as [-> | [v1 ->]]; simpl.
      * intros [H|[]]; discriminate.
      * intros [H|[H|[]]]; [discriminate|].
        injection H as <- _ <-. exists 0. rewrite Nat.add_0_r.
        repeat split; auto. lia.
Qed.

(** C1 fails on the code.  Document A goes into an empty collection, then
    document B: both ingestions ask for the id ["0"] for their first
    sentence.  The collection turns the second one down, ingestion of B
    stops with the error reply, and the collection holds the two records of
    A instead of four records. *)
Theorem populate_database_ids_collide :
  In (CallAdd "0" [17%Q; 1%Q] "Cats are mammals.")
     (snd (populate_database Sample.collaborators
             (Sample.file Sample.document_a) "a.txt" [])) /\
  In (CallAdd "0" [17%Q; 1%Q] "Cats are mammals.")
     (snd (populate_database Sample.collaborators
             (Sample.file Sample.document_b) "b.txt" Sample.store_a)) /\
  fst (populate_database Sample.collaborators
         (Sample.file Sample.document_b) "b.txt" Sample.store_a) =
    (Ok (msg_add_error "b.txt"), Sample.store_a) /\
  Collection.ids Sample.store_a = ["0"; "1"] /\
  map rec_document Sample.store_a =
    ["Cats are mammals."; "Dogs are loyal."].
Proof.
  split; [vm_compute; tauto|]. split; [vm_compute; tauto|].
  split; [reflexivity|]. split; reflexivity.
Qed.

(** ** Ranking *)

Module SearchFacts.
Import Collection.

Section Ranking.

Variable metric : vector -> vector -> Q.
Variable q : vector.

Local Notation "'before'" := (ranks_before metric q).
Local Notation "'score_of'" := (entry_score metric q).

Lemma before_of_le (a b : Entry) :
  (score_of b <= score_of a)%Q -> fst a < fst b -> before a b.
Proof.
  intros Hle Hlt. destruct (Qlt_le_dec (score_of b) (score_of a)) as [H|H].
  - now left.
  - right. split; [apply Qle_antisym; assumption | assumption].
Qed.

Lemma before_score (a b : Entry) :
  before a b -> (score_of b <= score_of a)%Q.
Proof.
  intros [H|[H _]]; [now apply Qlt_le_weak | rewrite H; apply Qle_refl].
Qed.

Lemma insert_perm (x : Entry) (l : list Entry) :
  Permutation (insert metric q x l) (x :: l).
Proof.
  induction l as [|y l IH]; simpl; [constructor; constructor|].
  destruct (Qle_bool (score_of y) (score_of x)); [apply Permutation_refl|].
  eapply perm_trans; [apply perm_skip, IH | apply perm_swap].
Qed.

Lemma insert_sorted (x : Entry) (l : list Entry) :
  StronglySorted before l ->
  Forall (fun y => fst x < fst y) l ->
  StronglySorted before (insert metric q x l).
Proof.
  induction l as [|y l IH]; intros Hs Hx; simpl.
  - repeat constructor.
  - apply StronglySorted_inv in Hs. destruct Hs as [Hs Hy].
    apply Forall_cons_iff in Hx. destruct Hx as [Hxy Hx].
    destruct (Qle_bool (score_of y) (score_of x)) eqn:E.
    + apply Qle_bool_iff in E. constructor.
      * now constructor.
      * constructor; [now apply before_of_le|].
        rewrite Forall_forall in *. intros z Hz.
        apply before_of_le; [|now apply Hx].
        eapply Qle_trans; [apply before_score, Hy, Hz | exact E].
    + constructor; [now apply IH|].
      assert (Hlt : (score_of x < score_of y)%Q).
      { apply Qnot_le_lt. intros H. apply Qle_bool_iff in H. congruence. }
      rewrite Forall_forall in *. intros z Hz.
      apply (Permutation_in _ (insert_perm x l)) in Hz.
      destruct Hz as [<-|Hz]; [now left | now apply Hy].
Qed.

Lemma rank_all_perm (l : list Entry) :
  Permutation (fold_right (insert metric q) [] l) l.
Proof.
  induction l as [|x l IH]; simpl; [constructor|].
  eapply perm_trans; [apply insert_perm | now apply perm_skip].
Qed.

Lemma rank_all_sorted (l : list Entry) :
  StronglySorted lt (map fst l) ->
  StronglySorted before (fold_right (insert metric q) [] l).
Proof.
  induction l as [|x l IH]; simpl; intros H; [constructor|].
  apply StronglySorted_inv in H. destruct H as [Hs Hx].
  apply insert_sorted; [now apply IH|].
  rewrite Forall_forall in *. intros y Hy.
  apply Hx, in_map, (Permutation_in _ (rank_all_perm l)), Hy.
Qed.

Lemma seq_sorted (n : nat) : forall a, StronglySorted lt (seq a n).
Proof.
  induction n as [|n IH]; intros a; simpl; constructor; [apply IH|].
  apply Forall_forall. intros x Hx. apply in_seq in Hx. lia.
Qed.

Lemma entries_positions (st : Store) :
  map fst (entries st) = seq 0 (length st).
Proof.
  unfold entries. generalize 0.
  induction st as [|r st IH]; intros a; simpl; [reflexivity|].
  now rewrite IH.
Qed.

Lemma entries_lookup (st : Store) (i : nat) (r : VectorRecord) :
  In (i, r) (entries st) <-> nth_error st i = Some r.
Proof.
  unfold entries.
  assert (G : forall a, In (i, r) (combine (seq a (length st)) st) <->
                        a <= i /\ nth_error st (i - a) = Some r).
  { induction st as [|r' st IH]; intros a; simpl.
    - split; [intros [] | intros [_ H]]. now destruct (i - a).
    - rewrite IH. split.
      + intros [H|[Ha H]].
        * injection H as -> ->. rewrite Nat.sub_diag. simpl. auto.
        * split; [lia|]. replace (i - a) with (S (i - S a)) by lia.
          exact H.
      + intros [Ha H]. destruct (i - a) as [|m] eqn:E.
        * left. simpl in H. injection H as ->. f_equal. lia.
        * right. split; [lia|]. simpl in H.
          now replace (i - S a) with m by lia. }
  rewrite G, Nat.sub_0_r. intuition lia.
Qed.

Lemma ranked_perm (st : Store) : Permutation (ranked metric q st) (entries st).
Proof. apply rank_all_perm. Qed.

Lemma ranked_sorted (st : Store) : StronglySorted before (ranked metric q st).
Proof.
  apply rank_all_sorted. rewrite entries_positions. apply seq_sorted.
Qed.

Lemma ranked_length (st : Store) : length (ranked metric q st) = length st.
Proof.
  rewrite (Permutation_length (ranked_perm st)). unfold entries, Entry.
  rewrite length_combine, length_seq. apply Nat.min_id.
Qed.

Lemma sorted_app_inv {A} (R : A -> A -> Prop) (l1 l2 : list A) :
  StronglySorted R (l1 ++ l2) ->
  StronglySorted R l1 /\ StronglySorted R l2 /\
  forall a b, In a l1 -> In b l2 -> R a b.
Proof.
  induction l1 as [|x l1 IH]; simpl; intros H.
  - repeat split; [constructor | assumption | intros a b []].
  - apply StronglySorted_inv in H. destruct H as [Hs Hx].
    destruct (IH Hs) as (H1 & H2 & H12).
    rewrite Forall_forall in Hx.
    repeat split; auto.
    + constructor; auto. apply Forall_forall. intros y Hy.
      apply Hx, in_or_app. now left.
    + intros a b [<-|Ha] Hb; [apply Hx, in_or_app; now right | now apply H12].
Qed.

Lemma sorted_map {A B} (R : A -> A -> Prop) (R' : B -> B -> Prop)
  (f : A -> B) (l : list A) :
  (forall a b, R a b -> R' (f a) (f b)) ->
  StronglySorted R l -> StronglySorted R' (map f l).
Proof.
  intros HR. induction 1 as [|a l Hs IH Ha]; simpl; constructor; auto.
  rewrite Forall_forall in *. intros b Hb.
  apply in_map_iff in Hb. destruct Hb as (x & <- & Hx). auto.
Qed.

Lemma search_hits_length (k : nat) (st : Store) :
  length (search_hits metric q k st) = min k (length st).
Proof. unfold search_hits. now rewrite length_firstn, ranked_length. Qed.

Lemma search_hits_sorted (k : nat) (st : Store) :
  StronglySorted before (search_hits metric q k st).
Proof.
  pose proof (ranked_sorted st) as H.
  rewrite <- (firstn_skipn k (ranked metric q st)) in H.
  now apply sorted_app_inv in H.
Qed.

Lemma search_hits_in (k : nat) (st : Store) (e : Entry) :
  In e (search_hits metric q k st) -> nth_error st (fst e) = Some (snd e).
Proof.
  intros H. apply entries_lookup. rewrite <- surjective_pairing.
  apply (Permutation_in _ (ranked_perm st)).
  rewrite <- (firstn_skipn k (ranked metric q st)). apply in_or_app. now left.
Qed.

Lemma search_hits_best (k : nat) (st : Store) (u h : Entry) :
  In u (entries st) -> ~ In u (search_hits metric q k st) ->
  In h (search_hits metric q k st) -> before h u.
Proof.
  intros Hu Hnu Hh. pose proof (ranked_sorted st) as H.
  rewrite <- (firstn_skipn k (ranked metric q st)) in H.
  apply sorted_app_inv in H. destruct H as (_ & _ & H). apply H; auto.
  apply (Permutation_in _ (Permutation_sym (ranked_perm st))) in Hu.
  rewrite <- (firstn_skipn k (ranked metric q st)) in Hu.
  apply in_app_or in Hu. now destruct Hu.
Qed.

(** C3: [search] with limit [k] on a collection of [n] records returns
    [min k n] results, so at most [k]; each comes with its similarity to the
    query; the results are in order of decreasing similarity, records of
    equal similarity in insertion order; every record of the collection that
    is not returned has a similarity not greater than that of any returned
    record, and where the two are equal it was inserted later. *)
Theorem search_top_k (k : nat) (st : Store) :
  length (search metric q k st) = min k (length st) /\
  length (search metric q k st) <= k /\
  search metric q k st =
    map (fun e => (snd e, metric q (rec_embedding (snd e))))
        (search_hits metric q k st) /\
  StronglySorted (fun a b => (snd b <= snd a)%Q) (search metric q k st) /\
  StronglySorted before (search_hits metric q k st) /\
  (forall e, In e (search_hits metric q k st) ->
             nth_error st (fst e) = Some (snd e)) /\
  (forall i r h,
     nth_error st i = Some r ->
     ~ In (i, r) (search_hits metric q k st) ->
     In h (search_hits metric q k st) ->
     (metric q (rec_embedding r) <= metric q (rec_embedding (snd h)))%Q /\
     ((metric q (rec_embedding r) == metric q (rec_embedding (snd h)))%Q ->
      fst h < i)).
Proof.
  assert (L : length (search metric q k st) = min k (length st))
    by (unfold search; now rewrite length_map, search_hits_length).
  split; [exact L|]. split; [rewrite L; apply Nat.le_min_l|].
  split; [reflexivity|]. split.
  { unfold search. apply sorted_map with (R := ranks_before metric q).
    - intros a b Hab. simpl. now apply before_score.
    - apply search_hits_sorted. }
  split; [apply search_hits_sorted|]. split; [apply search_hits_in|].
  intros i r h Hr Hn Hh.
  assert (B : before h (i, r)).
  { apply search_hits_best with (k := k) (st := st); auto.
    now apply entries_lookup. }
  split; [exact (before_score _ _ B)|].
  intros E. destruct B as [B|[_ B]]; [|exact B].
  unfold entry_score, score in B. simpl in B, E. rewrite E in B.
  now apply Qlt_irrefl in B.
Qed.

(** The ranking on a collection with a tie: the closest record first, then
    the two equally close ones in insertion order. *)
Example search_hits_ties :
  search_hits Sample.dot [1%Q; 0%Q] 3 Sample.store_ties =
  [(1, mkRecord "1" [2%Q; 0%Q] "second");
   (0, mkRecord "0" [1%Q; 5%Q] "first");
   (2, mkRecord "2" [1%Q; 7%Q] "third")].
Proof. reflexivity. Qed.

Lemma before_asym (a b : Entry) : before a b -> before b a -> False.
Proof.
  intros [H1|[E1 L1]] [H2|[E2 L2]].
  - apply (Qlt_irrefl (score_of a)). eapply Qlt_trans; eassumption.
  - rewrite E2 in H1. now apply Qlt_irrefl in H1.
  - rewrite E1 in H2. now apply Qlt_irrefl in H2.
  - lia.
Qed.

Lemma before_irrefl (a : Entry) : ~ before a a.
Proof. intros H. exact (before_asym a a H H). Qed.

Lemma sorted_nodup (l : list Entry) : StronglySorted before l -> NoDup l.
Proof.
  induction 1 as [|a l Hs IH Ha]; constructor; auto.
  intros Hin. rewrite Forall_forall in Ha.
  exact (before_irrefl a (Ha a Hin)).
Qed.

(** Two ranked lists with the same entries are the same list. *)
Lemma sorted_unique (l1 : list Entry) : forall l2,
  StronglySorted before l1 -> StronglySorted before l2 ->
  (forall e, In e l1 <-> In e l2) -> l1 = l2.
Proof.
  induction l1 as [|a l1 IH]; intros [|b l2] H1 H2 Hin.
  - reflexivity.
  - destruct (proj2 (Hin b) (or_introl eq_refl)).
  - destruct (proj1 (Hin a) (or_introl eq_refl)).
  - apply StronglySorted_inv in H1, H2.
    destruct H1 as [S1 F1], H2 as [S2 F2]. rewrite Forall_forall in F1, F2.
    assert (E : a = b).
    { destruct (proj1 (Hin a) (or_introl eq_refl)) as [E|Ha]; [now symmetry|].
      destruct (proj2 (Hin b) (or_introl eq_refl)) as [E|Hb]; [assumption|].
      destruct (before_asym a b (F1 b Hb) (F2 a Ha)). }
    subst b. f_equal. apply IH; auto. intros e. split; intros He.
    + destruct (proj1 (Hin e) (or_intror He)) as [<-|H]; [|exact H].
      destruct (before_irrefl a (F1 a He)).
    + destruct (proj2 (Hin e) (or_intror He)) as [<-|H]; [|exact H].
      destruct (before_irrefl a (F2 a He)).
Qed.

Lemma entry_eq_dec (a b : Entry) : {a = b} + {a <> b}.
Proof.
  assert (Q_eq_dec : forall x y : Q, {x = y} + {x <> y})
    by (decide equality; [apply Pos.eq_dec | apply Z.eq_dec]).
  assert (vector_eq_dec : forall x y : vector, {x = y} + {x <> y})
    by (apply list_eq_dec, Q_eq_dec).
  assert (record_eq_dec : forall x y : VectorRecord, {x = y} + {x <> y})
    by (decide equality; apply string_dec).
  decide equality. apply Nat.eq_dec.
Qed.

Lemma best_incl (A B : list Entry) :
  NoDup B -> length A <= length B ->
  (forall u x, In u B -> ~ In u A -> In x A -> before x u) ->
  (forall u x, In u A -> ~ In u B -> In x B -> before x u) ->
  incl A B.
Proof.
  intros NB Hlen HA HB e He.
  destruct (in_dec entry_eq_dec e B) as [|Hn]; [assumption|]. exfalso.
  assert (I : incl B A).
  { intros e' He'. destruct (in_dec entry_eq_dec e' A) as [|Hn']; auto.
    destruct (before_asym e e'); [apply HA | apply HB]; auto. }
  apply Hn. exact (NoDup_length_incl NB Hlen I e He).
Qed.

(** The ranking contract has one solution: a list of [min k n] entries of
    the collection that is ranked, and whose entries all rank before the
    entries left out, is the list that [search] is made of. *)
Lemma search_hits_unique (k : nat) (st : Store) (l : list Entry) :
  StronglySorted before l ->
  incl l (entries st) ->
  length l = min k (length st) ->
  (forall u h, In u (entries st) -> ~ In u l -> In h l -> before h u) ->
  l = search_hits metric q k st.
Proof.
  intros Hs Hin Hlen Hbest.
  assert (Hh : incl (search_hits metric q k st) (entries st)).
  { intros e He. apply search_hits_in in He. destruct e as [i r].
    now apply entries_lookup. }
  apply sorted_unique; [assumption | apply search_hits_sorted|].
  intros e. split; apply best_incl.
  - apply sorted_nodup, search_hits_sorted.
  - now rewrite search_hits_length, Hlen.
  - intros u x Hu. apply Hbest. now apply Hh.
  - intros u x Hu. apply search_hits_best. now apply Hin.
  - now apply sorted_nodup.
  - now rewrite search_hits_length, Hlen.
  - intros u x Hu. apply search_hits_best. now apply Hin.
  - intros u x Hu. apply Hbest. now apply Hh.
Qed.

Lemma search_hits_is_top_k (k : nat) (st : Store) :
  is_top_k metric q k st (search_hits metric q k st).
Proof.
  split; [apply search_hits_sorted|]. split.
  { intros [i r] He. apply entries_lookup.
    exact (search_hits_in k st (i, r) He). }
  split; [apply search_hits_length|].
  intros u h. apply search_hits_best.
Qed.

(** C9: for a fixed collection and a fixed query embedding the ordered
    result of a search is determined.  Two sequences of entries that both
    meet what is asked of a search with limit [k] (entries of the
    collection, [min k n] of them, by decreasing similarity, ties by
    insertion order, nothing left out that ranks before one returned) are
    the same sequence, entry by entry; [search] returns such a sequence, so
    its result is that one, whichever way and however often it is
    computed. *)
Theorem search_determined (k : nat) (st : Store) (l1 l2 : list Entry) :
  is_top_k metric q k st l1 ->
  is_top_k metric q k st l2 ->
  l1 = l2 /\
  is_top_k metric q k st (search_hits metric q k st) /\
  search metric q k st =
    map (fun e => (snd e, entry_score metric q e)) l1.
Proof.
  intros (S1 & I1 & L1 & B1) (S2 & I2 & L2 & B2).
  pose proof (search_hits_unique k st l1 S1 I1 L1 B1) as E1.
  pose proof (search_hits_unique k st l2 S2 I2 L2 B2) as E2.
  split; [congruence|]. split; [apply search_hits_is_top_k|].
  unfold search. now rewrite <- E1.
Qed.

End Ranking.

End SearchFacts.

(** ** The query pipeline *)

Section QueryFacts.

Variable env : Collaborators.

(** What [search_similar_content] does, by the outcome of the embedding of
    the query: the collection is never changed, and the no-matches branch is
    not among the cases. *)
Lemma search_similar_content_run (query : string) (top_n : nat) (st : Store) :
  search_similar_content env query top_n st =
  match encode env query with
  | None => (Ok msg_search_error, st, [CallEncode query])
  | Some v =>
      (Ok (append_lines msg_results_header 0 (matched_texts env v top_n st)),
       st, [CallEncode query; CallQuery v top_n])
  end.
Proof.
  unfold search_similar_content, collection_query. unfold_prog.
  destruct (encode env query) as [v|]; reflexivity.
Qed.

Lemma string_app_assoc (a b c : string) :
  ((a ++ b) ++ c)%string = (a ++ b ++ c)%string.
Proof. induction a; simpl; congruence. Qed.

Lemma append_lines_prefix (docs : list string) :
  forall (answer : string) (i : nat),
    exists lines, append_lines answer i docs = (answer ++ lines)%string.
Proof.
  induction docs as [|d docs IH]; intros answer i; cbn [append_lines].
  - exists "". induction answer; simpl; congruence.
  - destruct (IH (answer ++ PyStr.str (i + 1) ++ ". " ++ d ++ PyStr.newline)%string
                 (S i)) as [lines ->].
    rewrite string_app_assoc. eauto.
Qed.

(** The no-matches reply is never given. *)
Lemma search_similar_content_never_no_matches (query : string) (top_n : nat)
  (st : Store) :
  fst (fst (search_similar_content env query top_n st)) <> Ok msg_no_matches.
Proof.
  rewrite search_similar_content_run.
  destruct (encode env query) as [v|]; simpl; [|discriminate].
  destruct (append_lines_prefix (matched_texts env v top_n st)
              msg_results_header 0) as [lines ->].
  discriminate.
Qed.

(** C8, amended: a query whose text is empty is not rejected.  The embedding
    model is asked for the embedding of the empty text; when it returns one,
    the collection is consulted with it and the reply is the header followed
    by the ranked texts; when it raises, the reply is the search-error
    one. *)
Theorem search_similar_content_empty_query (top_n : nat) (st : Store) :
  search_similar_content env "" top_n st =
  match encode env "" with
  | None => (Ok msg_search_error, st, [CallEncode ""])
  | Some v =>
      (Ok (append_lines msg_results_header 0 (matched_texts env v top_n st)),
       st, [CallEncode ""; CallQuery v top_n])
  end.
Proof. apply search_similar_content_run. Qed.

End QueryFacts.

(** C4 fails on the code.  On an empty collection the search returns no
    record, the value under ['documents'] is the list holding one empty
    list, which is not empty, and the reply is the bare header of a result
    list, not the no-matches reply. *)
Theorem search_similar_content_empty_collection :
  Collection.search (similarity Sample.collaborators) [22%Q; 1%Q] 5 [] = [] /\
  Collection.documents
    (Collection.query (similarity Sample.collaborators) [] [[22%Q; 1%Q]] 5) =
    Some [[]] /\
  search_similar_content Sample.collaborators "What color is the sky?" 5 [] =
    (Ok msg_results_header, [],
     [CallEncode "What color is the sky?"; CallQuery [22%Q; 1%Q] 5]) /\
  msg_results_header <> msg_no_matches.
Proof. repeat split. discriminate. Qed.

(** C8, as stated, fails on the empty query: its embedding is computed, the
    collection is consulted, and the reply lists results. *)
Lemma search_similar_content_empty_query_not_rejected :
  search_similar_content Sample.collaborators "" 1 Sample.store_a =
  (Ok (msg_results_header ++ "1. Cats are mammals." ++ PyStr.newline)%string,
   Sample.store_a,
   [CallEncode ""; CallQuery [0%Q; 1%Q] 1]).
Proof. reflexivity. Qed.

(** * Further properties of the code *)

(** ** Extraction *)

Section ExtractionFacts.

Variable env : Collaborators.

Lemma docx_is_not_txt (file_name : string) :
  PyStr.has_extension file_name ".docx" ->
  PyStr.endswith (PyStr.lower file_name) ".txt" = false.
Proof.
  intros (stem & suffix & -> & Hs).
  destruct (PyStr.endswith _ ".txt") eqn:E; [|reflexivity]. exfalso.
  apply PyStrFacts.endswith_iff in E. destruct E as [p Hp].
  rewrite PyStrFacts.lower_app, Hs in Hp.
  assert (L : String.length (PyStr.lower stem ++ ".docx")%string =
              String.length (p ++ ".txt")%string) by now rewrite Hp.
  assert (A : forall a b, String.length (a ++ b)%string =
                          String.length a + String.length b)
    by (intros a b; induction a; simpl; congruence).
  rewrite !A in L. simpl in L.
  assert (G : forall a b : string,
             String.length b = S (String.length a) ->
             (a ++ ".docx")%string = (b ++ ".txt")%string -> False).
  { induction a as [|c a IH]; intros [|d b] Hl Hab; simpl in *;
      try discriminate.
    - destruct b as [|d' b]; [discriminate|]. simpl in Hl. discriminate.
    - injection Hab as _ Hab. apply (IH b); [lia | exact Hab]. }
  apply (G (PyStr.lower stem) p); [lia | exact Hp].
Qed.

(** Extraction never raises and never changes the collection, whatever the
    decoders do; it calls one decoder at most, on the bytes of the file. *)
Theorem extract_file_content_safe (file_bytes : list Byte.byte)
  (file_name : string) (st : Store) :
  exists text t,
    extract_file_content env file_bytes file_name st = (Ok text, st, t) /\
    length t <= 1 /\
    (forall c, In c t ->
       c = CallDetectDecode file_bytes \/ c = CallDocx file_bytes).
Proof.
  destruct (extract_file_content_run env file_bytes file_name st)
    as (text & t & E & Ht).
  exists text, t. split; [exact E|].
  destruct Ht as [-> | [-> | ->]]; simpl; split; auto; intuition.
Qed.

Lemma extract_file_content_txt_core (file_bytes : list Byte.byte)
  (file_name : string) (st : Store) :
  PyStr.has_extension file_name ".txt" ->
  extract_file_content env file_bytes file_name st =
  (Ok (detect_decode env file_bytes), st, [CallDetectDecode file_bytes]).
Proof.
  intros H. apply PyStrFacts.has_extension_iff in H.
  unfold extract_file_content. unfold_prog. rewrite H.
  now destruct (detect_decode env file_bytes).
Qed.

(** A file whose name ends in [.txt], in any letter case, goes to the text
    decoder and to no other; its text is what the decoder returns, and
    [None] when the decoder raises. *)
Theorem extract_file_content_txt (file_bytes : list Byte.byte)
  (file_name : string) (st : Store) :
  PyStr.has_extension file_name ".txt" ->
  extract_file_content env file_bytes file_name st =
  (Ok (detect_decode env file_bytes), st, [CallDetectDecode file_bytes]).
Proof. intros. eapply extract_file_content_txt_core; eassumption. Qed.

Lemma extract_file_content_docx_core (file_bytes : list Byte.byte)
  (file_name : string) (st : Store) :
  PyStr.has_extension file_name ".docx" ->
  extract_file_content env file_bytes file_name st =
  (Ok (option_map (PyStr.join PyStr.newline) (docx_paragraphs env file_bytes)),
   st, [CallDocx file_bytes]).
Proof.
  intros H. pose proof (docx_is_not_txt _ H) as Hn.
  apply PyStrFacts.has_extension_iff in H.
  unfold extract_file_content. unfold_prog. rewrite Hn, H.
  now destruct (docx_paragraphs env file_bytes).
Qed.

(** A file whose name ends in [.docx], in any letter case, goes to the
    document reader and to no other; its text is the paragraphs joined by
    newlines, and [None] when the reader raises. *)
Theorem extract_file_content_docx (file_bytes : list Byte.byte)
  (file_name : string) (st : Store) :
  PyStr.has_extension file_name ".docx" ->
  extract_file_content env file_bytes file_name st =
  (Ok (option_map (PyStr.join PyStr.newline) (docx_paragraphs env file_bytes)),
   st, [CallDocx file_bytes]).
Proof. intros. eapply extract_file_content_docx_core; eassumption. Qed.

(** A text file whose bytes the decoder cannot decode is turned down with
    the could-not-process reply: nothing is segmented, embedded or stored. *)
Theorem populate_database_undecodable (file_bytes : list Byte.byte)
  (file_name : string) (st : Store) :
  PyStr.has_extension file_name ".txt" ->
  detect_decode env file_bytes = None ->
  populate_database env file_bytes file_name st =
  (Ok msg_cannot_process, st, [CallDetectDecode file_bytes]).
Proof.
  intros H Hd. unfold populate_database. unfold bind at 1.
  now rewrite (extract_file_content_txt_core _ _ _ H), Hd.
Qed.

End ExtractionFacts.

(** ** Ingestion as a whole *)

Section IngestionResults.

Variable env : Collaborators.

(** What the loop leaves behind, whatever happens in it: it does not raise,
    it appends one record for each sentence of a first part of the list,
    keyed by position, and its reply tells whether that part is the whole
    list. *)
Lemma add_sentences_result (file_name : string) (sentences : list string) :
  forall (index : nat) (st : Store),
  exists reply n added t,
    add_sentences env file_name index sentences st =
      (Ok reply, st ++ added, t) /\
    map rec_document added = firstn n sentences /\
    map rec_id added = map PyStr.str (seq index n) /\
    ((reply = msg_saved /\ n = length sentences) \/
     (reply = msg_add_error file_name /\ n < length sentences)).
Proof.
  induction sentences as [|s rest IH]; intros index st.
  - exists msg_saved, 0, [], []. simpl. unfold ret.
    rewrite app_nil_r. repeat split. left. split; reflexivity.
  - simpl. unfold bind at 1, try_except at 1, bind at 1.
    destruct (add_sentence env index s st) as [[[[]|e] st1] t1] eqn:E1.
    + destruct (add_sentence_ok env _ _ _ _ _ E1) as (v & _ & -> & _).
      destruct (IH (S index) (st ++ [mkRecord (PyStr.str index) v s]))
        as (reply & n & added & t & E & Hd & Hi & Hr).
      simpl. rewrite E.
      exists reply, (S n), (mkRecord (PyStr.str index) v s :: added).
      eexists. rewrite <- app_assoc. split; [reflexivity|].
      simpl. rewrite Hd, Hi. repeat split; auto.
      destruct Hr as [[-> ->]|[-> Hn]]; [left | right]; split; auto; lia.
    + destruct (add_sentence_raise env _ _ _ _ _ _ E1) as [-> _].
      exists (msg_add_error file_name), 0, []. eexists. simpl.
      rewrite !app_nil_r. split; [reflexivity|]. repeat split.
      right. split; auto. lia.
Qed.

(** The segmenter of the model always returns, so a run of ingestion in the
    model always returns; this is the shape of what it returns. *)
Lemma populate_database_appends_core (file_bytes : list Byte.byte)
  (file_name : string) (st : Store) :
  exists reply added t,
    populate_database env file_bytes file_name st =
      (Ok reply, st ++ added, t) /\
    (reply = msg_cannot_process \/ reply = msg_saved \/
     reply = msg_add_error file_name) /\
    (reply = msg_cannot_process -> added = []) /\
    map rec_id added = map PyStr.str (seq 0 (length added)).
Proof.
  destruct (extract_file_content_run env file_bytes file_name st)
    as (text & t0 & E & _).
  assert (R : forall t, populate_database env file_bytes file_name st =
                        (Ok msg_cannot_process, st, t) ->
              exists reply added t',
                populate_database env file_bytes file_name st =
                  (Ok reply, st ++ added, t') /\
                (reply = msg_cannot_process \/ reply = msg_saved \/
                 reply = msg_add_error file_name) /\
                (reply = msg_cannot_process -> added = []) /\
                map rec_id added = map PyStr.str (seq 0 (length added))).
  { intros t H. exists msg_cannot_process, [], t. rewrite app_nil_r. auto. }
  destruct text as [[|c text]|].
  - apply (R t0). unfold populate_database. unfold bind at 1. rewrite E.
    simpl. unfold ret. now rewrite app_nil_r.
  - rewrite (populate_database_text env _ _ _ _ _ E) by discriminate.
    destruct (add_sentences_result file_name
                (sent_tokenize env (String c text)) 0 st)
      as (reply & n & added & t & -> & Hd & Hi & Hr).
    exists reply, added. eexists. split; [reflexivity|].
    assert (L : length added = n).
    { rewrite <- (length_map rec_id), Hi, length_map. apply length_seq. }
    rewrite L. repeat split; auto.
    + destruct Hr as [[-> _]|[-> _]]; auto.
    + intros ->. destruct Hr as [[H _]|[H _]]; discriminate.
  - apply (R t0). unfold populate_database. unfold bind at 1. rewrite E.
    simpl. unfold ret. now rewrite app_nil_r.
Qed.

(** A call of ingestion that returns gives one of its three replies and has
    only appended to the collection: the records it found are still there,
    in their order, in front of the new ones.  With the could-not-process
    reply nothing has been appended. *)
Theorem populate_database_appends (file_bytes : list Byte.byte)
  (file_name reply : string) (st st' : Store) (t : list Call) :
  populate_database env file_bytes file_name st = (Ok reply, st', t) ->
  (reply = msg_cannot_process \/ reply = msg_saved \/
   reply = msg_add_error file_name) /\
  exists added,
    st' = st ++ added /\
    (reply = msg_cannot_process -> added = []).
Proof.
  intros H.
  destruct (populate_database_appends_core file_bytes file_name st)
    as (reply' & added & t' & E & Hr & Hc & _).
  rewrite H in E. injection E as -> -> _.
  split; [exact Hr|]. exists added. split; [reflexivity | exact Hc].
Qed.

(** When every sentence of the text goes in, the reply is the success one
    and the collection has gained one record for each sentence, in order,
    keyed by position. *)
Theorem populate_database_all_stored (file_bytes : list Byte.byte)
  (file_name text : string) (st st1 : Store) (t0 t1 : list Call) :
  extract_file_content env file_bytes file_name st = (Ok (Some text), st, t0) ->
  text <> "" ->
  store_sentences env 0 (sent_tokenize env text) st = (Ok tt, st1, t1) ->
  populate_database env file_bytes file_name st =
    (Ok msg_saved, st1, t0 ++ CallSentTokenize text :: t1) /\
  exists added,
    st1 = st ++ added /\
    map rec_document added = sent_tokenize env text /\
    map rec_id added =
      map PyStr.str (seq 0 (length (sent_tokenize env text))).
Proof.
  intros E Hne Hs. split.
  - rewrite (populate_database_text env _ _ _ _ _ E Hne).
    rewrite <- (app_nil_r (sent_tokenize env text)) at 1.
    rewrite (add_sentences_app env file_name _ [] _ _ _ _ Hs). simpl.
    unfold ret. now rewrite app_nil_r.
  - exact (store_sentences_ok env _ _ _ _ _ Hs).
Qed.

End IngestionResults.

(** ** Identifiers within and across ingestions *)

Section IdentifierFacts.

Variable env : Collaborators.

Lemma added_ids_app (t u : list Call) :
  added_ids (t ++ u) = added_ids t ++ added_ids u.
Proof. apply flat_map_app. Qed.

Lemma str_positions_distinct (m : nat) : forall a,
  NoDup (map PyStr.str (seq a m)).
Proof.
  induction m as [|m IH]; intros a; simpl; constructor; [|apply IH].
  intros H. apply in_map_iff in H. destruct H as (x & Hx & Hin).
  apply PyStrFacts.str_inj in Hx. apply in_seq in Hin. lia.
Qed.

Lemma add_sentences_added_ids (file_name : string) (sentences : list string) :
  forall (index : nat) (st : Store),
  exists m,
    m <= length sentences /\
    added_ids (snd (add_sentences env file_name index sentences st)) =
      map PyStr.str (seq index m).
Proof.
  induction sentences as [|s rest IH]; intros index st.
  - exists 0. simpl. auto.
  - simpl. unfold bind at 1, try_except at 1, bind at 1.
    destruct (add_sentence env index s st) as [[[[]|e] st1] t1] eqn:E1.
    + destruct (add_sentence_ok env _ _ _ _ _ E1) as (v & _ & _ & ->).
      destruct (IH (S index) st1) as (m & Hm & Hi). simpl.
      destruct (add_sentences env file_name (S index) rest st1)
        as [[r st2] t2].
      exists (S m). split; [lia|]. simpl in *. now rewrite Hi.
    + destruct (add_sentence_raise env _ _ _ _ _ _ E1) as [_ Ht].
      destruct Ht as [-> | [v ->]]; [exists 0 | exists 1]; simpl;
        split; auto; lia.
Qed.

(** The ids that one ingestion asks the collection for are ["0"], ["1"],
    ... up to some position, each once: within one document no id is asked
    for twice. *)
Theorem populate_database_ids_within_run (file_bytes : list Byte.byte)
  (file_name : string) (st : Store) :
  (exists m,
     added_ids (snd (populate_database env file_bytes file_name st)) =
     map PyStr.str (seq 0 m)) /\
  NoDup (added_ids (snd (populate_database env file_bytes file_name st))).
Proof.
  assert (G : exists m,
     added_ids (snd (populate_database env file_bytes file_name st)) =
     map PyStr.str (seq 0 m)).
  { destruct (extract_file_content_run env file_bytes file_name st)
      as (text & t0 & E & Ht).
    assert (H0 : added_ids t0 = [])
      by (destruct Ht as [-> | [-> | ->]]; reflexivity).
    assert (R : populate_database env file_bytes file_name st =
                (Ok msg_cannot_process, st, t0) ->
                exists m,
                  added_ids
                    (snd (populate_database env file_bytes file_name st)) =
                  map PyStr.str (seq 0 m)).
    { intros ->. exists 0. exact H0. }
    destruct text as [[|c text]|].
    - apply R. unfold populate_database. unfold bind at 1. rewrite E.
      simpl. unfold ret. now rewrite app_nil_r.
    - rewrite (populate_database_text env _ _ _ _ _ E) by discriminate.
      destruct (add_sentences_added_ids file_name
                  (sent_tokenize env (String c text)) 0 st) as (m & _ & Hm).
      destruct (add_sentences env file_name 0 _ st) as [[r st'] t].
      exists m. simpl in *. rewrite added_ids_app, H0. simpl. exact Hm.
    - apply R. unfold populate_database. unfold bind at 1. rewrite E.
      simpl. unfold ret. now rewrite app_nil_r. }
  split; [exact G|]. destruct G as [m ->].
  apply str_positions_distinct.
Qed.

End IdentifierFacts.

(** ** The answer of a search *)

Section AnswerFacts.

Variable env : Collaborators.

Lemma append_lines_result_lines (docs : list string) :
  forall (answer : string) (i : nat),
    append_lines answer i docs =
    (answer ++ result_lines (i + 1) docs)%string.
Proof.
  induction docs as [|d docs IH]; intros answer i; cbn [append_lines].
  - simpl. induction answer; simpl; congruence.
  - rewrite IH. cbn [result_lines]. unfold result_line.
    rewrite !string_app_assoc. repeat f_equal; lia.
Qed.

(** When the embedding of the query raises, the reply is the search-error
    one and the collection is not consulted. *)
Theorem search_similar_content_encode_failure (query : string) (top_n : nat)
  (st : Store) :
  encode env query = None ->
  search_similar_content env query top_n st =
  (Ok msg_search_error, st, [CallEncode query]).
Proof. intros H. now rewrite search_similar_content_run, H. Qed.

(** When the query is embedded, the reply is the header followed by one
    line for each text the collection returns, in the order returned and
    numbered from 1; the collection is consulted once and left as it was. *)
Theorem search_similar_content_answer (query : string) (v : vector)
  (top_n : nat) (st : Store) :
  encode env query = Some v ->
  search_similar_content env query top_n st =
  (Ok (msg_results_header ++
       result_lines 1 (matched_texts env v top_n st))%string,
   st, [CallEncode query; CallQuery v top_n]).
Proof.
  intros H. rewrite search_similar_content_run, H.
  now rewrite append_lines_result_lines.
Qed.

End AnswerFacts.

(** ** The handlers *)

Module BotFacts.
Import Bot.

Ltac unfold_handler :=
  unfold hbind, htry, service, hret, lift, send in *.

Section HandlerFacts.

Variable svc : Services.
Variable env : Collaborators.

(** When the API does not give the path of the file, or the request for the
    file raises, the reply is the upload-error one; the collection is left
    as it was and no collaborator of the pipelines is called. *)
Theorem download_service_failure (id name : string) (st : Store) :
  get_file svc id = None \/
  (exists path, get_file svc id = Some path /\
                requests_get svc (download_url svc path) = None) ->
  exists t,
    download_and_process_file svc env id name st =
      (Returned msg_upload_error, st, t) /\
    forall c, ~ In (Collaborator c) t.
Proof.
  unfold download_and_process_file. unfold_handler.
  intros [H | (path & H & Hr)]; rewrite H; [|rewrite Hr]; simpl;
    eexists; (split; [reflexivity|]); intros c Hc; simpl in Hc;
    intuition discriminate.
Qed.

(** When the server answers the request with a status other than 200, the
    reply is the could-not-download one; the content is not looked at and
    the collection is left as it was. *)
Theorem download_bad_status (id name path : string) (status : Z)
  (content : list Byte.byte) (st : Store) :
  get_file svc id = Some path ->
  requests_get svc (download_url svc path) = Some (status, content) ->
  status <> 200%Z ->
  download_and_process_file svc env id name st =
  (Returned msg_download_failed, st,
   [GetFile id; HttpGet (download_url svc path)]).
Proof.
  intros H Hr Hs. unfold download_and_process_file. unfold_handler.
  rewrite H, Hr. simpl. apply Z.eqb_neq in Hs. now rewrite Hs.
Qed.

Lemma download_ok_core (id name path reply : string)
  (content : list Byte.byte) (st st' : Store) (t : list Call) :
  get_file svc id = Some path ->
  requests_get svc (download_url svc path) = Some (200%Z, content) ->
  populate_database env content name st = (Ok reply, st', t) ->
  download_and_process_file svc env id name st =
  (Returned reply, st',
   GetFile id :: HttpGet (download_url svc path) :: map Collaborator t).
Proof.
  intros H Hr Hp. unfold download_and_process_file. unfold_handler.
  rewrite H, Hr. simpl. now rewrite Hp.
Qed.

(** When the server answers with status 200, the content of the answer is
    ingested under the name the user gave to the file, and the reply and the
    collection are those of the ingestion. *)
Theorem download_ok (id name path reply : string)
  (content : list Byte.byte) (st st' : Store) (t : list Call) :
  get_file svc id = Some path ->
  requests_get svc (download_url svc path) = Some (200%Z, content) ->
  populate_database env content name st = (Ok reply, st', t) ->
  download_and_process_file svc env id name st =
  (Returned reply, st',
   GetFile id :: HttpGet (download_url svc path) :: map Collaborator t).
Proof. intros. eapply download_ok_core; eassumption. Qed.

(** A file whose name ends in neither [.txt] nor [.docx] is not downloaded:
    the user is told which formats are taken, the collection is left as it
    was, and nothing but messages goes out.  When that message cannot be
    sent, the upload-failed message is tried, and the handler raises when
    that one cannot be sent either. *)
Theorem handle_file_upload_wrong_format (message : Message) (st : Store) :
  ~ PyStr.has_extension (file_name (document message)) ".txt" ->
  ~ PyStr.has_extension (file_name (document message)) ".docx" ->
  handle_file_upload svc env message st =
  if send_message svc (chat_id message) msg_wrong_format then
    (Returned tt, st, [SendMessage (chat_id message) msg_wrong_format])
  else
    (if send_message svc (chat_id message) msg_upload_failed
     then Returned tt else Raised SendError,
     st,
     [SendMessage (chat_id message) msg_wrong_format;
      SendMessage (chat_id message) msg_upload_failed]).
Proof.
  intros H1 H2. rewrite PyStrFacts.has_extension_iff in H1, H2.
  apply not_true_is_false in H1, H2.
  unfold handle_file_upload. unfold_handler. rewrite H1, H2. simpl.
  now destruct (send_message svc (chat_id message) msg_wrong_format).
Qed.

(** A file that the handler takes and that is downloaded is always handed to
    a decoder: the ingestion starts with the call to the text decoder or to
    the document reader on the content, and the user is sent the reply of
    the ingestion. *)
Theorem handle_file_upload_accepted (message : Message) (path reply : string)
  (content : list Byte.byte) (st st' : Store) (t : list Call) :
  PyStr.has_extension (file_name (document message)) ".txt" \/
  PyStr.has_extension (file_name (document message)) ".docx" ->
  get_file svc (file_id (document message)) = Some path ->
  requests_get svc (download_url svc path) = Some (200%Z, content) ->
  populate_database env content (file_name (document message)) st =
    (Ok reply, st', t) ->
  send_message svc (chat_id message) reply = true ->
  handle_file_upload svc env message st =
    (Returned tt, st',
     GetFile (file_id (document message)) ::
     HttpGet (download_url svc path) ::
     map Collaborator t ++ [SendMessage (chat_id message) reply]) /\
  exists t',
    t = CallDetectDecode content :: t' \/ t = CallDocx content :: t'.
Proof.
  intros Hext H Hr Hp Hs. split.
  - unfold handle_file_upload.
    assert (G : PyStr.endswith (PyStr.lower (file_name (document message)))
                  ".txt"
                || PyStr.endswith (PyStr.lower (file_name (document message)))
                     ".docx" = true).
    { apply orb_true_iff.
      destruct Hext as [E|E]; apply PyStrFacts.has_extension_iff in E; auto. }
    unfold htry at 1. cbv zeta. rewrite G. unfold hbind at 1.
    rewrite (download_ok_core _ _ _ _ _ _ _ _ H Hr Hp).
    unfold send. rewrite Hs. reflexivity.
  - revert Hp. unfold populate_database. unfold bind at 1.
    destruct Hext as [E|E].
    + rewrite (extract_file_content_txt_core env _ _ _ E).
      destruct (detect_decode env content) as [[|c text]|]; simpl;
        try (intros Hp; injection Hp as _ _ <-; eauto).
      unfold bind, call_total.
      destruct (add_sentences env _ 0 _ st) as [[r s2] t2].
      intros Hp; injection Hp as _ _ <-. eauto.
    + rewrite (extract_file_content_docx_core env _ _ _ E).
      destruct (docx_paragraphs env content) as [ps|]; simpl;
        [|intros Hp; injection Hp as _ _ <-; eauto].
      destruct (PyStr.join PyStr.newline ps) as [|c text]; simpl;
        [intros Hp; injection Hp as _ _ <-; eauto|].
      unfold bind, call_total.
      destruct (add_sentences env _ 0 _ st) as [[r s2] t2].
      intros Hp; injection Hp as _ _ <-. eauto.
Qed.

(** A text message is answered with the reply of the search, and the
    collection is left as it was. *)
Theorem handle_text_query_delivers (message : Message) (reply : string)
  (st st' : Store) (t : list Call) :
  search_similar_content env (text message) 5 st = (Ok reply, st', t) ->
  send_message svc (chat_id message) reply = true ->
  handle_text_query svc env message st =
  (Returned tt, st,
   map Collaborator t ++ [SendMessage (chat_id message) reply]).
Proof.
  intros Hq Hs.
  assert (st' = st).
  { rewrite search_similar_content_run in Hq.
    destruct (encode env (text message)); now injection Hq as _ <- _. }
  subst st'. unfold handle_text_query. unfold_handler.
  now rewrite Hq, Hs.
Qed.

(** When the reply of the search cannot be sent, the handler tries the
    query-failed message once; it raises exactly when that one cannot be
    sent either.  The collection is left as it was. *)
Theorem handle_text_query_send_failure (message : Message) (reply : string)
  (st st' : Store) (t : list Call) :
  search_similar_content env (text message) 5 st = (Ok reply, st', t) ->
  send_message svc (chat_id message) reply = false ->
  handle_text_query svc env message st =
  (if send_message svc (chat_id message) msg_query_failed
   then Returned tt else Raised SendError,
   st,
   map Collaborator t ++
   [SendMessage (chat_id message) reply;
    SendMessage (chat_id message) msg_query_failed]).
Proof.
  intros Hq Hs.
  assert (st' = st).
  { rewrite search_similar_content_run in Hq.
    destruct (encode env (text message)); now injection Hq as _ <- _. }
  subst st'. unfold handle_text_query. unfold_handler.
  rewrite Hq, Hs. now rewrite <- app_assoc.
Qed.

(** When the reply of the ingestion of an accepted, downloaded file cannot
    be sent, the handler tries the upload-failed message once, from its
    except branch, and raises exactly when that one cannot be sent either.
    The records that the ingestion stored stay in the collection. *)
Theorem handle_file_upload_send_failure (message : Message)
  (path reply : string) (content : list Byte.byte) (st st' : Store)
  (t : list Call) :
  PyStr.has_extension (file_name (document message)) ".txt" \/
  PyStr.has_extension (file_name (document message)) ".docx" ->
  get_file svc (file_id (document message)) = Some path ->
  requests_get svc (download_url svc path) = Some (200%Z, content) ->
  populate_database env content (file_name (document message)) st =
    (Ok reply, st', t) ->
  send_message svc (chat_id message) reply = false ->
  handle_file_upload svc env message st =
  (if send_message svc (chat_id message) msg_upload_failed
   then Returned tt else Raised SendError,
   st',
   (GetFile (file_id (document message)) ::
    HttpGet (download_url svc path) ::
    map Collaborator t ++ [SendMessage (chat_id message) reply]) ++
   [SendMessage (chat_id message) msg_upload_failed]).
Proof.
  intros Hext H Hr Hp Hs. unfold handle_file_upload.
  assert (G : PyStr.endswith (PyStr.lower (file_name (document message)))
                ".txt"
              || PyStr.endswith (PyStr.lower (file_name (document message)))
                   ".docx" = true).
  { apply orb_true_iff.
    destruct Hext as [E|E]; apply PyStrFacts.has_extension_iff in E; auto. }
  unfold htry at 1. cbv zeta. rewrite G. unfold hbind at 1.
  rewrite (download_ok_core _ _ _ _ _ _ _ _ H Hr Hp).
  unfold send. rewrite Hs. reflexivity.
Qed.

End HandlerFacts.

End BotFacts.

(** ** The further properties on concrete inputs *)

Module Runs.
Import Bot.

(** An upper-case extension. *)
Lemma extract_file_content_txt_witness :
  extract_file_content Sample.collaborators (Sample.file "Hello.") "NOTES.TXT"
    [] =
  (Ok (detect_decode Sample.collaborators (Sample.file "Hello.")), [],
   [CallDetectDecode (Sample.file "Hello.")]).
Proof.
  apply extract_file_content_txt.
  apply PyStrFacts.has_extension_iff. reflexivity.
Defined.

(** A mixed-case extension. *)
Lemma extract_file_content_docx_witness :
  extract_file_content Sample.collaborators (Sample.file "Hello.")
    "Report.DocX" [] =
  (Ok (option_map (PyStr.join PyStr.newline)
         (docx_paragraphs Sample.collaborators (Sample.file "Hello."))), [],
   [CallDocx (Sample.file "Hello.")]).
Proof.
  apply extract_file_content_docx.
  apply PyStrFacts.has_extension_iff. reflexivity.
Defined.

(** A text file with a byte that is not ASCII, for the strict decoder. *)
Lemma populate_database_undecodable_witness :
  populate_database Sample.strict_collaborators [Byte.xff] "bad.txt"
    Sample.store_a =
  (Ok msg_cannot_process, Sample.store_a, [CallDetectDecode [Byte.xff]]).
Proof.
  apply populate_database_undecodable.
  - apply PyStrFacts.has_extension_iff. reflexivity.
  - reflexivity.
Defined.

(** Document A going into an empty collection. *)
Lemma populate_database_all_stored_witness :
  populate_database Sample.collaborators (Sample.file Sample.document_a)
    "a.txt" [] =
    (Ok msg_saved, Sample.store_a,
     [CallDetectDecode (Sample.file Sample.document_a)] ++
     CallSentTokenize Sample.document_a :: Sample.calls_a_loop) /\
  exists added,
    Sample.store_a = [] ++ added /\
    map rec_document added =
      sent_tokenize Sample.collaborators Sample.document_a /\
    map rec_id added =
      map PyStr.str
        (seq 0 (length (sent_tokenize Sample.collaborators
                          Sample.document_a))).
Proof.
  apply (populate_database_all_stored Sample.collaborators
           (Sample.file Sample.document_a) "a.txt" Sample.document_a
           [] Sample.store_a
           [CallDetectDecode (Sample.file Sample.document_a)]
           Sample.calls_a_loop).
  - reflexivity.
  - discriminate.
  - reflexivity.
Defined.

(** The document of five sentences going into an empty collection. *)
Lemma populate_database_appends_witness :
  (msg_add_error "five.txt" = msg_cannot_process \/
   msg_add_error "five.txt" = msg_saved \/
   msg_add_error "five.txt" = msg_add_error "five.txt") /\
  exists added,
    Sample.store_five = [] ++ added /\
    (msg_add_error "five.txt" = msg_cannot_process -> added = []).
Proof.
  eapply (populate_database_appends Sample.collaborators
            (Sample.file Sample.document_five) "five.txt").
  reflexivity.
Defined.

Ltac rank_entries :=
  first [ left; vm_compute; reflexivity
        | right; split; [vm_compute; reflexivity | vm_compute; lia] ].

Lemma ranking_ties_is_top_k :
  Collection.is_top_k Sample.dot [1%Q; 0%Q] 3 Sample.store_ties
    Sample.ranking_ties.
Proof.
  unfold Collection.is_top_k. split; [|split; [|split]].
  - repeat (apply SSorted_cons || apply SSorted_nil
            || apply Forall_cons || apply Forall_nil); rank_entries.
  - intros e [<-|[<-|[<-|[]]]]; vm_compute; auto 6.
  - reflexivity.
  - intros u h Hu Hn Hh. vm_compute in Hu.
    destruct Hu as [<-|[<-|[<-|[<-|[]]]]];
      try (exfalso; apply Hn; vm_compute; tauto).
    destruct Hh as [<-|[<-|[<-|[]]]]; rank_entries.
Defined.

(** A collection with a tie, and the limit 3. *)
Lemma search_determined_witness :
  Sample.ranking_ties = Sample.ranking_ties /\
  Collection.is_top_k Sample.dot [1%Q; 0%Q] 3 Sample.store_ties
    (Collection.search_hits Sample.dot [1%Q; 0%Q] 3 Sample.store_ties) /\
  Collection.search Sample.dot [1%Q; 0%Q] 3 Sample.store_ties =
    map (fun e => (snd e, Collection.entry_score Sample.dot [1%Q; 0%Q] e))
        Sample.ranking_ties.
Proof.
  apply (SearchFacts.search_determined Sample.dot [1%Q; 0%Q] 3
           Sample.store_ties Sample.ranking_ties Sample.ranking_ties).
  - exact ranking_ties_is_top_k.
  - exact ranking_ties_is_top_k.
Defined.

(** A query that the sample model cannot embed. *)
Lemma search_similar_content_encode_failure_witness :
  search_similar_content Sample.collaborators "Bad." 5 Sample.store_a =
  (Ok msg_search_error, Sample.store_a, [CallEncode "Bad."]).
Proof. apply search_similar_content_encode_failure. reflexivity. Defined.

(** A query on the collection that holds document A. *)
Lemma search_similar_content_answer_witness :
  search_similar_content Sample.collaborators "Dogs" 5 Sample.store_a =
  (Ok (msg_results_header ++
       result_lines 1
         (matched_texts Sample.collaborators [4%Q; 1%Q] 5 Sample.store_a))%string,
   Sample.store_a, [CallEncode "Dogs"; CallQuery [4%Q; 1%Q] 5]).
Proof. apply search_similar_content_answer. reflexivity. Defined.

(** A file that the API does not know. *)
Lemma download_service_failure_witness :
  exists t,
    download_and_process_file sample_services Sample.collaborators
      "lost" "a.txt" Sample.store_a =
      (Returned msg_upload_error, Sample.store_a, t) /\
    forall c, ~ In (Collaborator c) t.
Proof.
  apply BotFacts.download_service_failure. left. reflexivity.
Defined.

(** A file that the server does not have any more. *)
Lemma download_bad_status_witness :
  download_and_process_file sample_services Sample.collaborators
    "gone" "a.txt" Sample.store_a =
  (Returned msg_download_failed, Sample.store_a,
   [GetFile "gone"; HttpGet (download_url sample_services "documents/gone")]).
Proof.
  apply (BotFacts.download_bad_status sample_services Sample.collaborators
           "gone" "a.txt" "documents/gone" 404%Z []).
  - reflexivity.
  - reflexivity.
  - discriminate.
Defined.

(** Document A, downloaded into an empty collection. *)
Lemma download_ok_witness :
  download_and_process_file sample_services Sample.collaborators
    "doc-a" "a.txt" [] =
  (Returned msg_saved, Sample.store_a,
   GetFile "doc-a" ::
   HttpGet (download_url sample_services "documents/doc-a") ::
   map Collaborator Sample.calls_a).
Proof.
  apply (BotFacts.download_ok sample_services Sample.collaborators
           "doc-a" "a.txt" "documents/doc-a" msg_saved
           (Sample.file Sample.document_a)).
  - reflexivity.
  - reflexivity.
  - reflexivity.
Defined.

(** A picture sent by chat 7. *)
Lemma handle_file_upload_wrong_format_witness :
  handle_file_upload sample_services Sample.collaborators
    (mkMessage 7 "" (mkDocument "doc-a" "photo.PNG")) Sample.store_a =
  if send_message sample_services 7 msg_wrong_format then
    (Returned tt, Sample.store_a, [SendMessage 7 msg_wrong_format])
  else
    (if send_message sample_services 7 msg_upload_failed
     then Returned tt else Raised SendError,
     Sample.store_a,
     [SendMessage 7 msg_wrong_format; SendMessage 7 msg_upload_failed]).
Proof.
  apply (BotFacts.handle_file_upload_wrong_format sample_services
           Sample.collaborators
           (mkMessage 7 "" (mkDocument "doc-a" "photo.PNG"))).
  - rewrite PyStrFacts.has_extension_iff. vm_compute. discriminate.
  - rewrite PyStrFacts.has_extension_iff. vm_compute. discriminate.
Defined.

(** Document A sent by chat 7 to the bot with an empty collection. *)
Lemma handle_file_upload_accepted_witness :
  handle_file_upload sample_services Sample.collaborators
    (mkMessage 7 "" (mkDocument "doc-a" "a.txt")) [] =
    (Returned tt, Sample.store_a,
     GetFile "doc-a" ::
     HttpGet (download_url sample_services "documents/doc-a") ::
     map Collaborator Sample.calls_a ++ [SendMessage 7 msg_saved]) /\
  exists t',
    Sample.calls_a =
      CallDetectDecode (Sample.file Sample.document_a) :: t' \/
    Sample.calls_a = CallDocx (Sample.file Sample.document_a) :: t'.
Proof.
  apply (BotFacts.handle_file_upload_accepted sample_services
           Sample.collaborators
           (mkMessage 7 "" (mkDocument "doc-a" "a.txt"))
           "documents/doc-a" msg_saved (Sample.file Sample.document_a)).
  - left. apply PyStrFacts.has_extension_iff. reflexivity.
  - reflexivity.
  - reflexivity.
  - reflexivity.
  - reflexivity.
Defined.

(** Document A sent by chat 13, which no message reaches. *)
Lemma handle_file_upload_send_failure_witness :
  handle_file_upload sample_services Sample.collaborators
    (mkMessage 13 "" (mkDocument "doc-a" "a.txt")) [] =
  (if send_message sample_services 13 msg_upload_failed
   then Returned tt else Raised SendError,
   Sample.store_a,
   (GetFile "doc-a" ::
    HttpGet (download_url sample_services "documents/doc-a") ::
    map Collaborator Sample.calls_a ++ [SendMessage 13 msg_saved]) ++
   [SendMessage 13 msg_upload_failed]).
Proof.
  apply (BotFacts.handle_file_upload_send_failure sample_services
           Sample.collaborators
           (mkMessage 13 "" (mkDocument "doc-a" "a.txt"))
           "documents/doc-a" msg_saved (Sample.file Sample.document_a)).
  - left. apply PyStrFacts.has_extension_iff. reflexivity.
  - reflexivity.
  - reflexivity.
  - reflexivity.
  - reflexivity.
Defined.

(** A query sent by chat 7. *)
Lemma handle_text_query_delivers_witness :
  handle_text_query sample_services Sample.collaborators
    (mkMessage 7 "Bad." (mkDocument "" "")) Sample.store_a =
  (Returned tt, Sample.store_a,
   map Collaborator [CallEncode "Bad."] ++ [SendMessage 7 msg_search_error]).
Proof.
  apply (BotFacts.handle_text_query_delivers sample_services
           Sample.collaborators (mkMessage 7 "Bad." (mkDocument "" ""))
           msg_search_error Sample.store_a Sample.store_a).
  - reflexivity.
  - reflexivity.
Defined.

(** A query sent by chat 13, which no message reaches. *)
Lemma handle_text_query_send_failure_witness :
  handle_text_query sample_services Sample.collaborators
    (mkMessage 13 "Bad." (mkDocument "" "")) Sample.store_a =
  (if send_message sample_services 13 msg_query_failed
   then Returned tt else Raised SendError,
   Sample.store_a,
   map Collaborator [CallEncode "Bad."] ++
   [SendMessage 13 msg_search_error; SendMessage 13 msg_query_failed]).
Proof.
  apply (BotFacts.handle_text_query_send_failure sample_services
           Sample.collaborators (mkMessage 13 "Bad." (mkDocument "" ""))
           msg_search_error Sample.store_a Sample.store_a).
  - reflexivity.
  - reflexivity.
Defined.

End Runs.
